(** * Seawater thermophysical property correlations (seawater-mit.js)

    A shallow embedding of the property functions of [src/seawater-mit.js]
    and the proofs of the properties stated about them.

    Numbers.  A JavaScript number is modelled by a real number: arithmetic
    and comparisons are exact, and the values NaN and +-Infinity have no
    counterpart.  Every statement below is therefore a statement about the
    correlations over the reals, which is the level at which the validity
    ranges and the algebraic relations between the functions are written.

    Control.  A call either returns a number or throws.  The only [throw]
    statements of the file create a plain [Error] carrying a literal
    message; calling an identifier that no declaration binds throws a
    [ReferenceError].  Both are kept apart in [exn]. *)

From Stdlib Require Import Reals Lra String List Bool ZArith DecimalString.
Import ListNotations.

Open Scope R_scope.

(** ** The fragment of JavaScript the file uses *)

Module Js.

(** What a [throw] carries: the constructor and the message. *)
Inductive exn : Type :=
| Error (message : string)
| ReferenceError (message : string).

(** The outcome of evaluating a call. *)
Inductive completion (A : Type) : Type :=
| Return (value : A)
| Throw (e : exn).

Arguments Return {A} value.
Arguments Throw {A} e.

Definition bind {A B : Type} (c : completion A) (k : A -> completion B)
  : completion B :=
  match c with
  | Return v => k v
  | Throw e => Throw e
  end.

(** Comparison operators on numbers. *)
Definition ltb (x y : R) : bool := if Rlt_dec x y then true else false.
Definition leb (x y : R) : bool := if Rle_dec x y then true else false.
Definition gtb (x y : R) : bool := ltb y x.
Definition geb (x y : R) : bool := leb y x.

(** [x || d] on an argument that may be missing: [undefined] and [0] are
    the falsy values a real-valued argument can take. *)
Definition or_default (x : option R) (d : R) : R :=
  match x with
  | Some v => if Req_dec_T v 0 then d else v
  | None => d
  end.

(** [Math.exp] and [Math.log].  The file takes logarithms of positive
    numbers only (each [Math.log(S)] sits behind [S > 0] or [S >= 0.1]). *)
Definition Math_exp (x : R) : R := exp x.
Definition Math_log (x : R) : R := ln x.
Definition Math_log10 (x : R) : R := ln x / ln 10.

(** [Math.pow(x, y)] with an exponent that is not a natural literal.  The
    file reaches it with [x > 0], or with [x = 0] and [y > 0] (molality at
    zero salinity), where the result is 0.  [Math.pow(x, n)] with a
    literal natural [n] is written [x ^ n]. *)
Definition Math_pow (x y : R) : R :=
  if Rlt_dec 0 x then Rpower x y else 0.

(** Calling an identifier that is bound nowhere. *)
Definition call_undeclared {A : Type} (name : string) : completion A :=
  Throw (ReferenceError (name ++ " is not defined")).

End Js.

Import Js.

Declare Scope js_scope.
Delimit Scope js_scope with js.
Notation "x <- c ;; k" := (bind c (fun x => k))
  (at level 61, c at next level, right associativity) : js_scope.
Notation "x <? y" := (ltb x y) (at level 70, no associativity) : js_scope.
Notation "x >? y" := (gtb x y) (at level 70, no associativity) : js_scope.
Notation "x <=? y" := (leb x y) (at level 70, no associativity) : js_scope.
Notation "x >=? y" := (geb x y) (at level 70, no associativity) : js_scope.
Open Scope string_scope.
Open Scope R_scope.
Open Scope js_scope.

(** ** The property functions, in the order of their use *)

(** Vapor pressure of seawater [N/m^2] (source lines 874-901). *)
Definition SW_Psat (T S : R) : completion R :=
  if (T <? 0) || (T >? 180) then
    Throw (Error "Temperature is out of range for vapor pressure function 0 < T < 180 C")
  else if (S <? 0) || (S >? 160) then
    Throw (Error "Salinity is out of range for vapor pressure function 0 < S < 160 g/kg")
  else
    let T_K := T + 273.15 in
    let a1 := -5800.2206 in
    let a2 := 1.3914993 in
    let a3 := -0.048640239 in
    let a4 := 0.000041764768 in
    let a5 := -0.000000014452093 in
    let a6 := 6.5459673 in
    let Pv_w := Math_exp ((a1 / T_K) + a2 + a3 * T_K + a4 * T_K ^ 2 +
                          a5 * T_K ^ 3 + a6 * Math_log T_K) in
    let b1 := -4.5818e-4 in
    let b2 := -2.0443e-6 in
    Return (Pv_w * Math_exp (b1 * S + b2 * S ^ 2)).

(** Boiling point elevation [K] (lines 14-35). *)
Definition SW_BPE (T S : R) : completion R :=
  if (T <? 0) || (T >? 200) then
    Throw (Error "Temperature is out of range for boiling point elevation function 0 < T < 200 C")
  else if (S <? 0) || (S >? 120) then
    Throw (Error "Salinity is out of range for boiling point elevation function 0 < S < 120 g/kg")
  else
    let S := S / 1000 in
    let a1 := -0.00045838530457 in
    let a2 := 0.28230948284 in
    let a3 := 17.945189194 in
    let a4 := 0.00015361752708 in
    let a5 := 0.052669058133 in
    let a6 := 6.5604855793 in
    let A := a1 * T ^ 2 + a2 * T + a3 in
    let B := a4 * T ^ 2 + a5 * T + a6 in
    Return (A * S ^ 2 + B * S).

(** Thermal conductivity at ambient pressure [W/m K] (lines 171-186). *)
Definition SW_Conductivity (T S : R) : completion R :=
  if (T <? 0) || (T >? 180) then
    Throw (Error "Temperature is out of range for thermal conductivity function 0 < T < 180 C")
  else if (S <? 0) || (S >? 160) then
    Throw (Error "Salinity is out of range for thermal conductivity function 0 < S < 160 g/kg")
  else
    let T68 := 1.00024 * T in
    let SP := S / 1.00472 in
    Return (0.001 * Math_pow 10 (Math_log10 (240 + 0.0002 * SP) + 0.434 *
            (2.3 - (343.5 + 0.037 * SP) / (T68 + 273.15)) *
            Math_pow (1 - (T68 + 273.15) / (647.3 + 0.03 * SP)) (1 / 3))).

(** Pressure-dependent thermal conductivity [W/m K] (lines 196-228). *)
Definition SW_ConductivityP (T S P : R) : completion R :=
  if (T <? 10) || (T >? 90) then
    Throw (Error "Temperature is out of range for pressure-dependent thermal conductivity function 10 < T < 90 C")
  else if (S <? 0) || (S >? 120) then
    Throw (Error "Salinity is out of range for pressure-dependent thermal conductivity function 0 < S < 120 g/kg")
  else
    Psat <- SW_Psat T S ;;
    let P_sat := Psat / 1e6 in
    if (P <? P_sat) || (P >? 12) then
      Throw (Error "Pressure is out of range for pressure-dependent thermal conductivity function P_sat < P < 12 MPa")
    else
      let T_star := (T + 273.15) / 300 in
      let P_star := (P - 0.1) / 139.9 in
      let k_fw0 := 0.797015135 * Math_pow T_star (-0.193823894) -
                   0.251242021 * Math_pow T_star (-4.7166384) +
                   0.0964365893 * Math_pow T_star (-6.38463554) -
                   0.0326956491 * Math_pow T_star (-2.13362102) in
      let A := 13.464 * T_star ^ 4 -
               60.727 * T_star ^ 3 +
               102.81 * T_star ^ 2 -
               77.387 * T_star + 21.942 in
      let k_fw := k_fw0 * (1 + A * P_star) in
      let B := 0.00022 in
      Return (k_fw / (B * S + 1)).

(** The initialiser of the local [P0] of [SW_Density] (line 247). *)
Definition SW_Density_P0 (T S : R) : completion R :=
  if T <? 100 then Return 0.101325
  else (Psat <- SW_Psat T S ;; Return (Psat / 1e6)).

(** Density [kg/m^3] (lines 238-302). *)
Definition SW_Density (T S P : R) : completion R :=
  if (T <? 0) || (T >? 180) then
    Throw (Error "Temperature is out of range for density function 0 < T < 180 C")
  else if (S <? 0) || (S >? 150) then
    Throw (Error "Salinity is out of range for density function 0 < S < 150 g/kg")
  else
    P0 <- SW_Density_P0 T S ;;
    Psat <- SW_Psat T S ;;
    let P_sat := Psat / 1e6 in
    if (P <? P_sat) || (P >? 12) then
      Throw (Error "Pressure is out of range for density function P_sat < P < 12 MPa")
    else
      let S_kgkg := S / 1000 in
      let a1 := 9.9992293295e2 in
      let a2 := 2.0341179217e-2 in
      let a3 := -6.1624591598e-3 in
      let a4 := 2.2614664708e-5 in
      let a5 := -4.6570659168e-8 in
      let b1 := 8.0200240891e2 in
      let b2 := -2.0005183488 in
      let b3 := 1.6771024982e-2 in
      let b4 := -3.0600536746e-5 in
      let b5 := -1.6132224742e-5 in
      let rho_w := a1 + a2 * T + a3 * T ^ 2 + a4 * T ^ 3 + a5 * T ^ 4 in
      let D_rho := b1 * S_kgkg + b2 * S_kgkg * T + b3 * S_kgkg * T ^ 2 +
                   b4 * S_kgkg * T ^ 3 + b5 * S_kgkg ^ 2 * T ^ 2 in
      let rho_sw_sharq := rho_w + D_rho in
      let c1 := 5.0792e-4 in
      let c2 := -3.4168e-6 in
      let c3 := 5.6931e-8 in
      let c4 := -3.7263e-10 in
      let c5 := 1.4465e-12 in
      let c6 := -1.7058e-15 in
      let c7 := -1.3389e-6 in
      let c8 := 4.8603e-9 in
      let c9 := -6.8039e-13 in
      let d1 := -1.1077e-6 in
      let d2 := 5.5584e-9 in
      let d3 := -4.2539e-11 in
      let d4 := 8.3702e-9 in
      let kT := c1 + c2 * T + c3 * T ^ 2 + c4 * T ^ 3 +
                c5 * T ^ 4 + c6 * T ^ 5 +
                P * (c7 + c8 * T + c9 * T ^ 3) +
                S * (d1 + d2 * T + d3 * T ^ 2 + d4 * P) in
      let F_P := Math_exp ((P - P0) * (c1 + c2 * T + c3 * T ^ 2 +
                 c4 * T ^ 3 + c5 * T ^ 4 + c6 * T ^ 5 +
                 S * (d1 + d2 * T + d3 * T ^ 2)) +
                 0.5 * (P ^ 2 - P0 ^ 2) *
                 (c7 + c8 * T + c9 * T ^ 3 + d4 * S)) in
      Return (rho_sw_sharq * F_P).

(** The initialiser of the local [P0] of [SW_SpcHeat] (line 950). *)
Definition SW_SpcHeat_P0 (T S : R) : completion R :=
  if T <? 100 then Return 0.101325
  else (Psat <- SW_Psat T S ;; Return (Psat / 1e6)).

(** Specific heat capacity [J/kg-K] (lines 935-978). *)
Definition SW_SpcHeat (T S P : R) : completion R :=
  if (T <? 0) || (T >? 180) then
    Throw (Error "Temperature is out of range for specific heat capacity function 0 < T < 180 C")
  else if (S <? 0) || (S >? 180) then
    Throw (Error "Salinity is out of range for specific heat capacity function 0 < S < 180 g/kg")
  else
    Psat <- SW_Psat T S ;;
    let P_sat := Psat / 1e6 in
    if (P <? P_sat) || (P >? 12) then
      Throw (Error "Pressure is out of range for specific heat capacity function P_sat < P < 12 MPa")
    else
      P0 <- SW_SpcHeat_P0 T S ;;
      let T68 := 1.00024 * T in
      let SP := S / 1.00472 in
      let A := 5.328 - 9.76e-2 * SP + 4.04e-4 * SP ^ 2 in
      let B := -6.913e-3 + 7.351e-4 * SP - 3.15e-6 * SP ^ 2 in
      let C := 9.6e-6 - 1.927e-6 * SP + 8.23e-9 * SP ^ 2 in
      let D := 2.5e-9 + 1.666e-9 * SP - 7.125e-12 * SP ^ 2 in
      let cp_sw_P0 := 1000 * (A + B * T68 + C * T68 ^ 2 + D * T68 ^ 3) in
      let c1 := -3.1118 in
      let c2 := 0.0157 in
      let c3 := 5.1014e-5 in
      let c4 := -1.0302e-6 in
      let c5 := 0.0107 in
      let c6 := -3.9716e-5 in
      let c7 := 3.2088e-8 in
      let c8 := 1.0119e-9 in
      let cp_sw_P := (P - P0) * (c1 + c2 * T + c3 * T ^ 2 + c4 * T ^ 3 +
                     S * (c5 + c6 * T + c7 * T ^ 2 + c8 * T ^ 3)) in
      Return (cp_sw_P0 + cp_sw_P).

(** The initialiser of the local [P0] of [SW_Diffusivity] (line 320). *)
Definition SW_Diffusivity_P0 (T S : R) : completion R :=
  if T <? 100 then Return 0.101325
  else (Psat <- SW_Psat T S ;; Return (Psat / 1e6)).

(** Thermal diffusivity [m^2/s] (lines 311-326). *)
Definition SW_Diffusivity (T S : R) : completion R :=
  if (T <? 0) || (T >? 180) then
    Throw (Error "Temperature is out of range for diffusivity function 0 < T < 180 C")
  else if (S <? 0) || (S >? 150) then
    Throw (Error "Salinity is out of range for diffusivity function 0 < S < 150 g/kg")
  else
    P0 <- SW_Diffusivity_P0 T S ;;
    rho <- SW_Density T S P0 ;;
    cp <- SW_SpcHeat T S P0 ;;
    K <- SW_Conductivity T S ;;
    Return (K / (rho * cp)).

(** The initialiser of the local [P0] of [SW_Enthalpy] (line 351). *)
Definition SW_Enthalpy_P0 (T S : R) : completion R :=
  if T <? 100 then Return 0.101325
  else (Psat <- SW_Psat T S ;; Return (Psat / 1e6)).

(** Specific enthalpy [J/kg] (lines 336-385). *)
Definition SW_Enthalpy (T S P : R) : completion R :=
  if (T <? 10) || (T >? 120) then
    Throw (Error "Temperature is out of range for enthalpy function 10 < T < 120 C")
  else if (S <? 0) || (S >? 120) then
    Throw (Error "Salinity is out of range for enthalpy function 0 < S < 120 g/kg")
  else
    Psat <- SW_Psat T S ;;
    let P_sat := Psat / 1e6 in
    if (P <? P_sat) || (P >? 12) then
      Throw (Error "Pressure is out of range for enthalpy function P_sat < P < 12 MPa")
    else
      P0 <- SW_Enthalpy_P0 T S ;;
      let S_kgkg := S / 1000 in
      let h_w := 141.355 + 4202.07 * T - 0.535 * T ^ 2 + 0.004 * T ^ 3 in
      let b1 := -2.34825e4 in
      let b2 := 3.15183e5 in
      let b3 := 2.80269e6 in
      let b4 := -1.44606e7 in
      let b5 := 7.82607e3 in
      let b6 := -4.41733e1 in
      let b7 := 2.1394e-1 in
      let b8 := -1.99108e4 in
      let b9 := 2.77846e4 in
      let b10 := 9.72801e1 in
      let c1 := 996.7767 in
      let c2 := -3.2406 in
      let c3 := 0.0127 in
      let c4 := -4.7723e-5 in
      let c5 := -1.1748 in
      let c6 := 0.01169 in
      let c7 := -2.6185e-5 in
      let c8 := 7.0661e-8 in
      let h_sw_P := (P - P0) * (c1 + c2 * T + c3 * T ^ 2 + c4 * T ^ 3 +
                    S * (c5 + c6 * T + c7 * T ^ 2 + c8 * T ^ 3)) in
      Return (h_w - S_kgkg * (b1 + b2 * S_kgkg + b3 * S_kgkg ^ 2 + b4 * S_kgkg ^ 3 +
              b5 * T + b6 * T ^ 2 + b7 * T ^ 3 + b8 * S_kgkg * T +
              b9 * S_kgkg ^ 2 * T + b10 * S_kgkg * T ^ 2) + h_sw_P).

(** The initialiser of the local [P0] of [SW_Entropy] (line 410). *)
Definition SW_Entropy_P0 (T S : R) : completion R :=
  if T <? 100 then Return 0.101325
  else (Psat <- SW_Psat T S ;; Return (Psat / 1e6)).

(** Specific entropy [J/kg-K] (lines 395-450). *)
Definition SW_Entropy (T S P : R) : completion R :=
  if (T <? 10) || (T >? 120) then
    Throw (Error "Temperature is out of range for entropy function 10 < T < 120 C")
  else if (S <? 0) || (S >? 120) then
    Throw (Error "Salinity is out of range for entropy function 0 < S < 120 g/kg")
  else
    Psat <- SW_Psat T S ;;
    let P_sat := Psat / 1e6 in
    if (P <? P_sat) || (P >? 12) then
      Throw (Error "Pressure is out of range for entropy function P_sat < P < 12 MPa")
    else
      P0 <- SW_Entropy_P0 T S ;;
      let S_kgkg := S / 1000 in
      let a1 := 1.543226508e-1 in
      let a2 := 1.5382700241e1 in
      let a3 := -2.9963211781e-2 in
      let a4 := 8.1929151062e-5 in
      let a5 := -1.3699640311e-7 in
      let s_w := a1 + a2 * T + a3 * T ^ 2 + a4 * T ^ 3 + a5 * T ^ 4 in
      let b1 := -4.2307343871e2 in
      let b2 := 1.4630334922e4 in
      let b3 := -9.8796297642e4 in
      let b4 := 3.0946224962e5 in
      let b5 := 2.5623880831e1 in
      let b6 := -1.4432346624e-1 in
      let b7 := 5.8790568541e-4 in
      let b8 := -6.110676427e1 in
      let b9 := 8.0408001971e1 in
      let b10 := 3.0354282687e-1 in
      let c1 := -4.4786e-3 in
      let c2 := -1.1654e-2 in
      let c3 := 6.1154e-5 in
      let c4 := -2.0696e-7 in
      let c5 := -1.5531e-3 in
      let c6 := 4.0054e-5 in
      let c7 := -1.4193e-7 in
      let c8 := 3.3142e-10 in
      let s_sw_P := (P - P0) * (c1 + c2 * T + c3 * T ^ 2 + c4 * T ^ 3 +
                    S * (c5 + c6 * T + c7 * T ^ 2 + c8 * T ^ 3)) in
      Return (s_w - S_kgkg * (b1 + b2 * S_kgkg + b3 * S_kgkg ^ 2 + b4 * S_kgkg ^ 3 +
              b5 * T + b6 * T ^ 2 + b7 * T ^ 3 + b8 * S_kgkg * T +
              b9 * S_kgkg ^ 2 * T + b10 * S_kgkg * T ^ 2) + s_sw_P).

(** The initialiser of the local [P0] of [SW_Gibbs] (line 528). *)
Definition SW_Gibbs_P0 (T S : R) : completion R :=
  if T <? 100 then Return 0.101325
  else (Psat <- SW_Psat T S ;; Return (Psat / 1e6)).

(** Specific Gibbs energy [J/kg] (lines 513-572). *)
Definition SW_Gibbs (T S P : R) : completion R :=
  if (T <? 10) || (T >? 120) then
    Throw (Error "Temperature is out of range for Gibbs function 10 < T < 120 C")
  else if (S <? 0) || (S >? 120) then
    Throw (Error "Salinity is out of range for Gibbs function 0 < S < 120 g/kg")
  else
    Psat <- SW_Psat T S ;;
    let P_sat := Psat / 1e6 in
    if (P <? P_sat) || (P >? 12) then
      Throw (Error "Pressure is out of range for Gibbs function P_sat < P < 12 MPa")
    else
      P0 <- SW_Gibbs_P0 T S ;;
      let a1 := 1.0677e2 in
      let a2 := -1.4303 in
      let a3 := -7.6139 in
      let a4 := 8.3627e-3 in
      let a5 := -7.8754e-6 in
      let g_w := a1 + a2 * T + a3 * T ^ 2 + a4 * T ^ 3 + a5 * T ^ 4 in
      let b1 := -2.4176e2 in
      let b2 := -6.2462e-1 in
      let b3 := 7.4761e-3 in
      let b4 := 1.3836e-3 in
      let b5 := -6.7157e-6 in
      let b6 := 5.1993e-4 in
      let b7 := 9.9176e-9 in
      let b8 := 6.6448e1 in
      let b9 := 2.0681e-1 in
      let g_sw_P0 :=
        if S >? 0 then
          b1 * S + b2 * S * T + b3 * S * T ^ 2 +
          b4 * S ^ 2 * T + b5 * S ^ 2 * T ^ 2 +
          b6 * S ^ 3 + b7 * S ^ 3 * T ^ 2 +
          b8 * S * Math_log S + b9 * S * T * Math_log S
        else 0 in
      let c1 := 996.1978 in
      let c2 := 3.491e-2 in
      let c3 := 4.7231e-3 in
      let c4 := -6.9037e-6 in
      let c5 := -7.2431e-1 in
      let c6 := 1.5712e-3 in
      let c7 := -1.8919e-5 in
      let c8 := 2.5939e-8 in
      let g_sw_P := (P - P0) * (c1 + c2 * T + c3 * T ^ 2 + c4 * T ^ 3 +
                    S * (c5 + c6 * T + c7 * T ^ 2 + c8 * T ^ 3)) in
      Return (g_w + g_sw_P0 + g_sw_P).

(** The [if]/[else] assigning the local [P0] of [SW_ChemPot_s] (lines 60-65). *)
Definition SW_ChemPot_s_P0 (T S : R) : completion R :=
  if T <? 100 then Return 0.101325
  else (Psat <- SW_Psat T S ;; Return (Psat / 1e6)).

(** Chemical potential of salt [J/kg] (lines 45-96). *)
Definition SW_ChemPot_s (T S P : R) : completion R :=
  if (T <? 10) || (T >? 80) then
    Throw (Error "Temperature is out of range for the chemical potential of salt function 10 < T < 80 C")
  else if (S <? 0.1) || (S >? 120) then
    Throw (Error "Salinity is out of range for the chemical potential of salt function 0.1 < S < 120 g/kg")
  else
    Psat <- SW_Psat T S ;;
    let P_sat := Psat / 1e6 in
    if (P <? P_sat) || (P >? 12) then
      Throw (Error "Pressure is out of range for the chemical potential of salt function P_sat < P < 12 MPa")
    else
      P0 <- SW_ChemPot_s_P0 T S ;;
      if (P >? P0) && ((S >? 42) || (T >? 40)) then
        Throw (Error "Salinity is out of range for the chemical potential of salt function 10 < T < 40 C; 0.1 < S < 42 g/kg; P_sat < P < 12 MPa")
      else
        let b1 := -2.4176e2 in
        let b2 := -6.2462e-1 in
        let b3 := 7.4761e-3 in
        let b4 := 1.3836e-3 in
        let b5 := -6.7157e-6 in
        let b6 := 5.1993e-4 in
        let b7 := 9.9176e-9 in
        let b8 := 6.6448e1 in
        let b9 := 2.0681e-1 in
        let dg_ds_P0 := b1 + b2 * T + b3 * T ^ 2 +
                        2 * b4 * S * T + 2 * b5 * S * T ^ 2 +
                        3 * b6 * S ^ 2 + 3 * b7 * S ^ 2 * T ^ 2 +
                        b8 * (Math_log S + 1) + b9 * T * (Math_log S + 1) in
        let c5 := -7.2431e-1 in
        let c6 := 1.5712e-3 in
        let c7 := -1.8919e-5 in
        let c8 := 2.5939e-8 in
        let dg_ds_P := (P - P0) * (c5 + c6 * T + c7 * T ^ 2 + c8 * T ^ 3) in
        let dg_ds := dg_ds_P0 + dg_ds_P in
        g <- SW_Gibbs T S P ;;
        let mu_s := g + (1000 - S) * dg_ds in
        Return mu_s.

(** The [if]/[else] assigning the local [P0] of [SW_ChemPot_w] (lines 121-126). *)
Definition SW_ChemPot_w_P0 (T S : R) : completion R :=
  if T <? 100 then Return 0.101325
  else (Psat <- SW_Psat T S ;; Return (Psat / 1e6)).

(** Chemical potential of water [J/kg] (lines 106-162). *)
Definition SW_ChemPot_w (T S P : R) : completion R :=
  if (T <? 10) || (T >? 80) then
    Throw (Error "Temperature is out of range for the chemical potential of water function 10 < T < 80 C")
  else if (S <? 0) || (S >? 120) then
    Throw (Error "Salinity is out of range for the chemical potential of water function 0 < S < 120 g/kg")
  else
    Psat <- SW_Psat T S ;;
    let P_sat := Psat / 1e6 in
    if (P <? P_sat) || (P >? 12) then
      Throw (Error "Pressure is out of range for the chemical potential of water function P_sat < P < 12 MPa")
    else
      P0 <- SW_ChemPot_w_P0 T S ;;
      if (P >? P0) && ((S >? 42) || (T >? 40)) then
        Throw (Error "Salinity is out of range for the chemical potential of water function 10 < T < 40 C; 0 < S < 42 g/kg; P_sat < P < 12 MPa")
      else
        let b1 := -2.4176e2 in
        let b2 := -6.2462e-1 in
        let b3 := 7.4761e-3 in
        let b4 := 1.3836e-3 in
        let b5 := -6.7157e-6 in
        let b6 := 5.1993e-4 in
        let b7 := 9.9176e-9 in
        let b8 := 6.6448e1 in
        let b9 := 2.0681e-1 in
        let Sdg_dS :=
          if S >? 0 then
            let dg_ds_P0 := b1 + b2 * T + b3 * T ^ 2 +
                            2 * b4 * S * T + 2 * b5 * S * T ^ 2 +
                            3 * b6 * S ^ 2 + 3 * b7 * S ^ 2 * T ^ 2 +
                            b8 * (Math_log S + 1) + b9 * T * (Math_log S + 1) in
            let c5 := -7.2431e-1 in
            let c6 := 1.5712e-3 in
            let c7 := -1.8919e-5 in
            let c8 := 2.5939e-8 in
            let dg_ds_P := (P - P0) * (c5 + c6 * T + c7 * T ^ 2 + c8 * T ^ 3) in
            let dg_ds := dg_ds_P0 + dg_ds_P in
            S * dg_ds
          else 0 in
        g <- SW_Gibbs T S P ;;
        Return (g - Sdg_dS).

(** [SW_SChemPot_s] is called three times by [SW_FlowExergy] (lines 494,
    498 and 499).  The file holds no declaration of that name: it is not
    among its twenty-four function declarations, and nothing is imported.
    Evaluating the call expression therefore throws before any argument is
    used. *)
Definition SW_SChemPot_s (T S P : R) : completion R :=
  call_undeclared "SW_SChemPot_s".

(** Specific flow exergy [J/kg] (lines 463-503).  The dead state
    arguments may be missing. *)
Definition SW_FlowExergy (T S P : R) (T0 S0 P0 : option R) : completion R :=
  if (T <? 10) || (T >? 80) then
    Throw (Error "Temperature is out of range for flow exergy function 10 < T < 80 C")
  else if (S <? 0) || (S >? 120) then
    Throw (Error "Salinity is out of range for flow exergy function 0 < S < 120 g/kg")
  else
    Psat <- SW_Psat T S ;;
    let P_sat := Psat / 1e6 in
    if (P <? P_sat) || (P >? 12) then
      Throw (Error "Pressure is out of range for flow exergy function P_sat < P < 12 MPa")
    else
      let T0 := or_default T0 25 in
      let S0 := or_default S0 35 in
      let P0 := or_default P0 0.101325 in
      if S0 <? 0.1 then
        Throw (Error "Reference salinity is out of allowed range for flow exergy function 0.1 < S0 < 120")
      else
        h_sw <- SW_Enthalpy T S P ;;
        s_sw <- SW_Entropy T S P ;;
        h_sw_star <- SW_Enthalpy T0 S P0 ;;
        s_sw_star <- SW_Entropy T0 S P0 ;;
        mu_w_star <- SW_ChemPot_w T0 S P0 ;;
        Smu_s_star <- SW_SChemPot_s T0 S P0 ;;
        mu_w_0 <- SW_ChemPot_w T0 S0 P0 ;;
        S0mu_s_0 <- SW_SChemPot_s T0 S0 P0 ;;
        Smu_s_0' <- SW_SChemPot_s T0 S0 P0 ;;
        let Smu_s_0 := Smu_s_0' * (S / S0) in
        Return ((h_sw - h_sw_star) - (T0 + 273.15) * (s_sw - s_sw_star) +
                (1 - 0.001 * S) * (mu_w_star - mu_w_0) +
                0.001 * (Smu_s_star - Smu_s_0)).

(** Specific internal energy [J/kg] (lines 582-599). *)
Definition SW_IntEnergy (T S P : R) : completion R :=
  if (T <? 10) || (T >? 120) then
    Throw (Error "Temperature is out of range for internal energy function 10 < T < 120 C")
  else if (S <? 0) || (S >? 120) then
    Throw (Error "Salinity is out of range for internal energy function 0 < S < 120 g/kg")
  else
    Psat <- SW_Psat T S ;;
    let P_sat := Psat / 1e6 in
    if (P <? P_sat) || (P >? 12) then
      Throw (Error "Pressure is out of range for internal energy function P_sat < P < 12 MPa")
    else
      rho <- SW_Density T S P ;;
      h <- SW_Enthalpy T S P ;;
      Return (h - (P * 1e6 / rho)).

(** The initialiser of the local [P0] of [SW_IsobExp] (line 624). *)
Definition SW_IsobExp_P0 (T S : R) : completion R :=
  if T <? 100 then Return 0.101325
  else (Psat <- SW_Psat T S ;; Return (Psat / 1e6)).

(** Isobaric thermal expansivity [1/K] (lines 609-683). *)
Definition SW_IsobExp (T S P : R) : completion R :=
  if (T <? 0) || (T >? 180) then
    Throw (Error "Temperature is out of range for isobaric expansivity function 0 < T < 180 C")
  else if (S <? 0) || (S >? 150) then
    Throw (Error "Salinity is out of range for isobaric expansivity function 0 < S < 150 g/kg")
  else
    Psat <- SW_Psat T S ;;
    let P_sat := Psat / 1e6 in
    if (P <? P_sat) || (P >? 12) then
      Throw (Error "Pressure is out of range for isobaric expansivity function P_sat < P < 12 MPa")
    else
      P0 <- SW_IsobExp_P0 T S ;;
      let S_kgkg := S / 1000 in
      let a1 := 9.9992293295e2 in
      let a2 := 2.0341179217e-2 in
      let a3 := -6.1624591598e-3 in
      let a4 := 2.2614664708e-5 in
      let a5 := -4.6570659168e-8 in
      let b1 := 8.0200240891e2 in
      let b2 := -2.0005183488 in
      let b3 := 1.6771024982e-2 in
      let b4 := -3.0600536746e-5 in
      let b5 := -1.6132224742e-5 in
      let drho_wdT := a2 + 2 * a3 * T + 3 * a4 * T ^ 2 + 4 * a5 * T ^ 3 in
      let dD_rhodT := b2 * S_kgkg + 2 * b3 * S_kgkg * T + 3 * b4 * S_kgkg * T ^ 2 +
                      2 * b5 * S_kgkg ^ 2 * T in
      let rho_w := a1 + a2 * T + a3 * T ^ 2 + a4 * T ^ 3 + a5 * T ^ 4 in
      let D_rho := b1 * S_kgkg + b2 * S_kgkg * T + b3 * S_kgkg * T ^ 2 +
                   b4 * S_kgkg * T ^ 3 + b5 * S_kgkg ^ 2 * T ^ 2 in
      let rho_sw_sharq := rho_w + D_rho in
      let drho_sw_sharqdT := drho_wdT + dD_rhodT in
      let c1 := 5.0792e-4 in
      let c2 := -3.4168e-6 in
      let c3 := 5.6931e-8 in
      let c4 := -3.7263e-10 in
      let c5 := 1.4465e-12 in
      let c6 := -1.7058e-15 in
      let c7 := -1.3389e-6 in
      let c8 := 4.8603e-9 in
      let c9 := -6.8039e-13 in
      let d1 := -1.1077e-6 in
      let d2 := 5.5584e-9 in
      let d3 := -4.2539e-11 in
      let d4 := 8.3702e-9 in
      let F_P := Math_exp ((P - P0) * (c1 + c2 * T + c3 * T ^ 2 +
                 c4 * T ^ 3 + c5 * T ^ 4 + c6 * T ^ 5 +
                 S * (d1 + d2 * T + d3 * T ^ 2)) +
                 0.5 * (P ^ 2 - P0 ^ 2) *
                 (c7 + c8 * T + c9 * T ^ 3 + d4 * S)) in
      let dF_PdT := F_P * ((P - P0) * (c2 + 2 * c3 * T + 3 * c4 * T ^ 2 +
                    4 * c5 * T ^ 3 + 5 * c6 * T ^ 4 +
                    S * (d2 + 2 * d3 * T)) +
                    0.5 * (P ^ 2 - P0 ^ 2) *
                    (c8 + 3 * c9 * T ^ 2)) in
      let rho := rho_sw_sharq * F_P in
      let drho_dT := drho_sw_sharqdT * F_P + rho_sw_sharq * dF_PdT in
      Return (- drho_dT / rho).

(** Isothermal compressibility [1/MPa] (lines 693-726). *)
Definition SW_IsothComp (T S P : R) : completion R :=
  if (T <? 0) || (T >? 180) then
    Throw (Error "Temperature is out of range for isothermal compressibility function 0 < T < 180 C")
  else if (S <? 0) || (S >? 160) then
    Throw (Error "Salinity is out of range for isothermal compressibility function 0 < S < 160 g/kg")
  else
    Psat <- SW_Psat T S ;;
    let P_sat := Psat / 1e6 in
    if (P <? P_sat) || (P >? 12) then
      Throw (Error "Pressure is out of range for isothermal compressibility function P_sat < P < 12 MPa")
    else
      let c1 := 5.0792e-4 in
      let c2 := -3.4168e-6 in
      let c3 := 5.6931e-8 in
      let c4 := -3.7263e-10 in
      let c5 := 1.4465e-12 in
      let c6 := -1.7058e-15 in
      let c7 := -1.3389e-6 in
      let c8 := 4.8603e-9 in
      let c9 := -6.8039e-13 in
      let d1 := -1.1077e-6 in
      let d2 := 5.5584e-9 in
      let d3 := -4.2539e-11 in
      let d4 := 8.3702e-9 in
      Return (c1 + c2 * T + c3 * T ^ 2 + c4 * T ^ 3 +
              c5 * T ^ 4 + c6 * T ^ 5 +
              P * (c7 + c8 * T + c9 * T ^ 3) +
              S * (d1 + d2 * T + d3 * T ^ 2 + d4 * P)).

(** Dynamic viscosity [kg/m-s] (lines 1010-1041). *)
Definition SW_Viscosity (T S : R) : completion R :=
  if (T <? 0) || (T >? 180) then
    Throw (Error "Temperature is out of range for viscosity function 0 < T < 180 C")
  else if (S <? 0) || (S >? 150) then
    Throw (Error "Salinity is out of range for viscosity function 0 < S < 150 g/kg")
  else
    let S_kgkg := S / 1000 in
    let a1 := 0.15700386464 in
    let a2 := 64.99262005 in
    let a3 := -91.296496657 in
    let a4 := 0.000042844324477 in
    let mu_w := a4 + 1 / (a1 * (T + a2) ^ 2 + a3) in
    let a5 := 1.540913604 in
    let a6 := 0.019981117208 in
    let a7 := -0.000095203865864 in
    let a8 := 7.9739318223 in
    let a9 := -0.075614568881 in
    let a10 := 0.00047237011074 in
    let A := a5 + a6 * T + a7 * T ^ 2 in
    let B := a8 + a9 * T + a10 * T ^ 2 in
    Return (mu_w * (1 + A * S_kgkg + B * S_kgkg ^ 2)).

(** The initialiser of the local [P0] of [SW_Kviscosity] (line 744), with
    the test written the other way round. *)
Definition SW_Kviscosity_P0 (T S : R) : completion R :=
  if T >=? 100 then (Psat <- SW_Psat T S ;; Return (Psat / 1e6))
  else Return 0.101325.

(** Kinematic viscosity [m^2/s] (lines 735-749). *)
Definition SW_Kviscosity (T S : R) : completion R :=
  if (T <? 0) || (T >? 180) then
    Throw (Error "Temperature is out of range for kinematic viscosity function 0 < T < 180 C")
  else if (S <? 0) || (S >? 150) then
    Throw (Error "Salinity is out of range for kinematic viscosity function 0 < S < 150 g/kg")
  else
    P0 <- SW_Kviscosity_P0 T S ;;
    rho <- SW_Density T S P0 ;;
    mu <- SW_Viscosity T S ;;
    Return (mu / rho).

(** Latent heat of vaporization [J/kg] (lines 758-775). *)
Definition SW_LatentHeat (T S : R) : completion R :=
  if (T <? 0) || (T >? 200) then
    Throw (Error "Temperature is out of range for latent heat function 0 < T < 200 C")
  else if (S <? 0) || (S >? 240) then
    Throw (Error "Salinity is out of range for latent heat function 0 < S < 240 g/kg")
  else
    let a1 := 2500899.1412 in
    let a2 := -2369.1806479 in
    let a3 := 0.26776439436 in
    let a4 := -0.0081027544602 in
    let a5 := -0.000020799346624 in
    let hfg_w := a1 + a2 * T + a3 * T ^ 2 + a4 * T ^ 3 + a5 * T ^ 4 in
    Return (hfg_w * (1 - 0.001 * S)).

(** The expression returned by the [else] branch of [SW_OsmCoeff]
    (lines 830-833): the fitted polynomial, evaluated at the salinity it is
    given. *)
Definition OsmCoeff_polynomial (T S : R) : R :=
  let a1 := 0.89453233003 in
  let a2 := 0.00041560737424 in
  let a3 := -0.0000046262121398 in
  let a4 := 0.000000000022211195897 in
  let a5 := -0.00011445456438 in
  let a6 := -0.0000014783462366 in
  let a7 := -0.000000000013526263499 in
  let a8 := 0.0000070132355546 in
  let a9 := 0.000000056960486681 in
  let a10 := -0.00000000028624032584 in
  a1 + a2 * T + a3 * T ^ 2 + a4 * T ^ 4 +
  a5 * S + a6 * T * S + a7 * S * T ^ 3 +
  a8 * S ^ 2 + a9 * S ^ 2 * T +
  a10 * S ^ 2 * T ^ 2.

(** Osmotic coefficient [-] (lines 784-835). *)
Definition SW_OsmCoeff (T S : R) : completion R :=
  if (T <? 0) || (T >? 120) then
    Throw (Error "Temperature is out of range for osmotic coefficient function 0 < T < 120 C")
  else if (S <? 0) || (S >? 120) then
    Throw (Error "Salinity is out of range for osmotic coefficient function 0 < S < 120 g/kg")
  else
    let a1 := 0.89453233003 in
    let a2 := 0.00041560737424 in
    let a3 := -0.0000046262121398 in
    let a4 := 0.000000000022211195897 in
    let a5 := -0.00011445456438 in
    let a6 := -0.0000014783462366 in
    let a7 := -0.000000000013526263499 in
    let a8 := 0.0000070132355546 in
    let a9 := 0.000000056960486681 in
    let a10 := -0.00000000028624032584 in
    let MW_s := 31.4038218 in
    if S <=? 10 then
      let S_eq := 10 in
      let Phi_corr_eq := a1 + a2 * T + a3 * T ^ 2 + a4 * T ^ 4 +
                         a5 * S_eq + a6 * T * S_eq + a7 * S_eq * T ^ 3 +
                         a8 * S_eq ^ 2 + a9 * S_eq ^ 2 * T +
                         a10 * S_eq ^ 2 * T ^ 2 in
      let dPhi_corr_eq := a5 + a6 * T + a7 * T ^ 3 +
                          2 * a8 * S_eq + 2 * a9 * S_eq * T +
                          2 * a10 * S_eq * T ^ 2 in
      let m_sum_eq := S_eq / (1000 - S_eq) * (1000 / MW_s) in
      let dmds_eq := (1000 / MW_s) * (1 / (1000 - S_eq) + S_eq / (1000 - S_eq) ^ 2) in
      let beta := -2 * (Math_pow m_sum_eq (-0.5) * (Phi_corr_eq - 1) -
                  dPhi_corr_eq * Math_pow m_sum_eq 0.5 / dmds_eq) in
      let lambda := (Phi_corr_eq + beta * Math_pow m_sum_eq 0.5 - 1) / m_sum_eq in
      let m_sum := S / (1000 - S) * (1000 / MW_s) in
      Return (1 - beta * Math_pow m_sum 0.5 + lambda * m_sum)
    else
      Return (OsmCoeff_polynomial T S).

(** The initialiser of the local [P0] of [SW_OsmPress] (line 860): the
    saturation pressure is taken at salinity 0. *)
Definition SW_OsmPress_P0 (T S : R) : completion R :=
  if T <? 100 then Return 0.101325
  else (Psat <- SW_Psat T 0 ;; Return (Psat / 1e6)).

(** Osmotic pressure [MPa] (lines 844-865). *)
Definition SW_OsmPress (T S : R) : completion R :=
  if (T <? 0) || (T >? 120) then
    Throw (Error "Temperature is out of range for osmotic pressure function 0 < T < 120 C")
  else if (S <? 0) || (S >? 120) then
    Throw (Error "Salinity is out of range for osmotic pressure function 0 < S < 120 g/kg")
  else
    Phi <- SW_OsmCoeff T S ;;
    let T_K := T + 273.15 in
    let Mw_sw := 31.4038218 in
    let R := 8.3144598 in
    let m_sum := 1000 * S / ((1000 - S) * Mw_sw) in
    P0 <- SW_OsmPress_P0 T S ;;
    rho_w_kgm3 <- SW_Density T 0 P0 ;;
    let Pi := Phi * m_sum * R * T_K * rho_w_kgm3 in
    Return (Pi / 1e6).

(** The initialiser of the local [P0] of [SW_Prandtl] (line 919). *)
Definition SW_Prandtl_P0 (T S : R) : completion R :=
  if T <? 100 then Return 0.101325
  else (Psat <- SW_Psat T S ;; Return (Psat / 1e6)).

(** Prandtl number [-] (lines 910-925). *)
Definition SW_Prandtl (T S : R) : completion R :=
  if (T <? 0) || (T >? 180) then
    Throw (Error "Temperature is out of range for Prandtl function 0 < T < 180 C")
  else if (S <? 0) || (S >? 150) then
    Throw (Error "Salinity is out of range for Prandtl function 0 < S < 150 g/kg")
  else
    P0 <- SW_Prandtl_P0 T S ;;
    cp <- SW_SpcHeat T S P0 ;;
    mu <- SW_Viscosity T S ;;
    K <- SW_Conductivity T S ;;
    Return (cp * mu / K).

(** Surface tension [mN/m] (lines 987-1001). *)
Definition SW_SurfaceTension (T S : R) : completion R :=
  if (T <? 0) || (T >? 100) then
    Throw (Error "Temperature is out of range for surface tension function 0 < T < 100 C")
  else if (S <? 0) || (S >? 131) then
    Throw (Error "Salinity is out of range for surface tension function 0 < S < 131 g/kg")
  else
    let T_K := T + 273.15 in
    let gamma_w := 235.8 * Math_pow (1 - (T_K / 647.096)) 1.256 *
                   (1 - 0.625 * (1 - (T_K / 647.096))) in
    Return (gamma_w * (1 + 3.766e-4 * S + 2.347e-6 * S * T)).

(** Specific volume [m^3/kg] (lines 1051-1062). *)
Definition SW_Volume (T S P : R) : completion R :=
  if (T <? 0) || (T >? 180) then
    Throw (Error "Temperature is out of range for specific volume function 0 < T < 180 C")
  else if (S <? 0) || (S >? 150) then
    Throw (Error "Salinity is out of range for specific volume function 0 < S < 150 g/kg")
  else
    rho <- SW_Density T S P ;;
    Return (1 / rho).

(** ** The public surface *)

(** The names listed in [module.exports] (lines 1065-1090). *)
Inductive public_function : Type :=
| Fn_BPE | Fn_ChemPot_s | Fn_ChemPot_w | Fn_Conductivity | Fn_ConductivityP | Fn_Density
| Fn_Diffusivity | Fn_Enthalpy | Fn_Entropy | Fn_FlowExergy | Fn_Gibbs | Fn_IntEnergy
| Fn_IsobExp | Fn_IsothComp | Fn_Kviscosity | Fn_LatentHeat | Fn_OsmCoeff | Fn_OsmPress
| Fn_Psat | Fn_Prandtl | Fn_SpcHeat | Fn_SurfaceTension | Fn_Viscosity | Fn_Volume.

(** A call of an exported function with numeric arguments.  A function
    that declares two parameters ignores the third argument; only
    [SW_FlowExergy] reads the dead-state arguments. *)
Definition call (f : public_function) (T S P : R) (T0 S0 P0 : option R)
  : completion R :=
  match f with
  | Fn_BPE => SW_BPE T S
  | Fn_ChemPot_s => SW_ChemPot_s T S P
  | Fn_ChemPot_w => SW_ChemPot_w T S P
  | Fn_Conductivity => SW_Conductivity T S
  | Fn_ConductivityP => SW_ConductivityP T S P
  | Fn_Density => SW_Density T S P
  | Fn_Diffusivity => SW_Diffusivity T S
  | Fn_Enthalpy => SW_Enthalpy T S P
  | Fn_Entropy => SW_Entropy T S P
  | Fn_FlowExergy => SW_FlowExergy T S P T0 S0 P0
  | Fn_Gibbs => SW_Gibbs T S P
  | Fn_IntEnergy => SW_IntEnergy T S P
  | Fn_IsobExp => SW_IsobExp T S P
  | Fn_IsothComp => SW_IsothComp T S P
  | Fn_Kviscosity => SW_Kviscosity T S
  | Fn_LatentHeat => SW_LatentHeat T S
  | Fn_OsmCoeff => SW_OsmCoeff T S
  | Fn_OsmPress => SW_OsmPress T S
  | Fn_Psat => SW_Psat T S
  | Fn_Prandtl => SW_Prandtl T S
  | Fn_SpcHeat => SW_SpcHeat T S P
  | Fn_SurfaceTension => SW_SurfaceTension T S
  | Fn_Viscosity => SW_Viscosity T S
  | Fn_Volume => SW_Volume T S P
  end.

(** ** The reference-pressure rule, as the specification words it *)

(** [resolvePressureReference(T, S)]: 0.101325 MPa if T < 100 C, else the
    saturation pressure at (T, S), converted from Pa to MPa. *)
Definition resolvePressureReference (T S : R) : completion R :=
  if T <? 100 then Return 0.101325
  else (Psat <- SW_Psat T S ;; Return (Psat / 1e6)).

(** ** The correlations, with the reference pressure as a parameter *)

(** The arithmetic of [SW_Density] (lines 254-301), as a function of the
    reference pressure [P0] it is computed with. *)
Definition Density_correlation (T S P P0 : R) : R :=
  let S_kgkg := S / 1000 in
  let a1 := 9.9992293295e2 in
  let a2 := 2.0341179217e-2 in
  let a3 := -6.1624591598e-3 in
  let a4 := 2.2614664708e-5 in
  let a5 := -4.6570659168e-8 in
  let b1 := 8.0200240891e2 in
  let b2 := -2.0005183488 in
  let b3 := 1.6771024982e-2 in
  let b4 := -3.0600536746e-5 in
  let b5 := -1.6132224742e-5 in
  let rho_w := a1 + a2 * T + a3 * T ^ 2 + a4 * T ^ 3 + a5 * T ^ 4 in
  let D_rho := b1 * S_kgkg + b2 * S_kgkg * T + b3 * S_kgkg * T ^ 2 +
               b4 * S_kgkg * T ^ 3 + b5 * S_kgkg ^ 2 * T ^ 2 in
  let rho_sw_sharq := rho_w + D_rho in
  let c1 := 5.0792e-4 in
  let c2 := -3.4168e-6 in
  let c3 := 5.6931e-8 in
  let c4 := -3.7263e-10 in
  let c5 := 1.4465e-12 in
  let c6 := -1.7058e-15 in
  let c7 := -1.3389e-6 in
  let c8 := 4.8603e-9 in
  let c9 := -6.8039e-13 in
  let d1 := -1.1077e-6 in
  let d2 := 5.5584e-9 in
  let d3 := -4.2539e-11 in
  let d4 := 8.3702e-9 in
  let kT := c1 + c2 * T + c3 * T ^ 2 + c4 * T ^ 3 +
            c5 * T ^ 4 + c6 * T ^ 5 +
            P * (c7 + c8 * T + c9 * T ^ 3) +
            S * (d1 + d2 * T + d3 * T ^ 2 + d4 * P) in
  let F_P := Math_exp ((P - P0) * (c1 + c2 * T + c3 * T ^ 2 +
             c4 * T ^ 3 + c5 * T ^ 4 + c6 * T ^ 5 +
             S * (d1 + d2 * T + d3 * T ^ 2)) +
             0.5 * (P ^ 2 - P0 ^ 2) *
             (c7 + c8 * T + c9 * T ^ 3 + d4 * S)) in
  rho_sw_sharq * F_P.

(** The arithmetic of [SW_Enthalpy] (lines 352-384), as a function of the
    reference pressure [P0] it is computed with. *)
Definition Enthalpy_correlation (T S P P0 : R) : R :=
  let S_kgkg := S / 1000 in
  let h_w := 141.355 + 4202.07 * T - 0.535 * T ^ 2 + 0.004 * T ^ 3 in
  let b1 := -2.34825e4 in
  let b2 := 3.15183e5 in
  let b3 := 2.80269e6 in
  let b4 := -1.44606e7 in
  let b5 := 7.82607e3 in
  let b6 := -4.41733e1 in
  let b7 := 2.1394e-1 in
  let b8 := -1.99108e4 in
  let b9 := 2.77846e4 in
  let b10 := 9.72801e1 in
  let c1 := 996.7767 in
  let c2 := -3.2406 in
  let c3 := 0.0127 in
  let c4 := -4.7723e-5 in
  let c5 := -1.1748 in
  let c6 := 0.01169 in
  let c7 := -2.6185e-5 in
  let c8 := 7.0661e-8 in
  let h_sw_P := (P - P0) * (c1 + c2 * T + c3 * T ^ 2 + c4 * T ^ 3 +
                S * (c5 + c6 * T + c7 * T ^ 2 + c8 * T ^ 3)) in
  h_w - S_kgkg * (b1 + b2 * S_kgkg + b3 * S_kgkg ^ 2 + b4 * S_kgkg ^ 3 +
          b5 * T + b6 * T ^ 2 + b7 * T ^ 3 + b8 * S_kgkg * T +
          b9 * S_kgkg ^ 2 * T + b10 * S_kgkg * T ^ 2) + h_sw_P.

(** The arithmetic of [SW_Entropy] (lines 411-449), as a function of the
    reference pressure [P0] it is computed with. *)
Definition Entropy_correlation (T S P P0 : R) : R :=
  let S_kgkg := S / 1000 in
  let a1 := 1.543226508e-1 in
  let a2 := 1.5382700241e1 in
  let a3 := -2.9963211781e-2 in
  let a4 := 8.1929151062e-5 in
  let a5 := -1.3699640311e-7 in
  let s_w := a1 + a2 * T + a3 * T ^ 2 + a4 * T ^ 3 + a5 * T ^ 4 in
  let b1 := -4.2307343871e2 in
  let b2 := 1.4630334922e4 in
  let b3 := -9.8796297642e4 in
  let b4 := 3.0946224962e5 in
  let b5 := 2.5623880831e1 in
  let b6 := -1.4432346624e-1 in
  let b7 := 5.8790568541e-4 in
  let b8 := -6.110676427e1 in
  let b9 := 8.0408001971e1 in
  let b10 := 3.0354282687e-1 in
  let c1 := -4.4786e-3 in
  let c2 := -1.1654e-2 in
  let c3 := 6.1154e-5 in
  let c4 := -2.0696e-7 in
  let c5 := -1.5531e-3 in
  let c6 := 4.0054e-5 in
  let c7 := -1.4193e-7 in
  let c8 := 3.3142e-10 in
  let s_sw_P := (P - P0) * (c1 + c2 * T + c3 * T ^ 2 + c4 * T ^ 3 +
                S * (c5 + c6 * T + c7 * T ^ 2 + c8 * T ^ 3)) in
  s_w - S_kgkg * (b1 + b2 * S_kgkg + b3 * S_kgkg ^ 2 + b4 * S_kgkg ^ 3 +
          b5 * T + b6 * T ^ 2 + b7 * T ^ 3 + b8 * S_kgkg * T +
          b9 * S_kgkg ^ 2 * T + b10 * S_kgkg * T ^ 2) + s_sw_P.

(** The arithmetic of [SW_Gibbs] (lines 530-571), as a function of the
    reference pressure [P0] it is computed with. *)
Definition Gibbs_correlation (T S P P0 : R) : R :=
  let a1 := 1.0677e2 in
  let a2 := -1.4303 in
  let a3 := -7.6139 in
  let a4 := 8.3627e-3 in
  let a5 := -7.8754e-6 in
  let g_w := a1 + a2 * T + a3 * T ^ 2 + a4 * T ^ 3 + a5 * T ^ 4 in
  let b1 := -2.4176e2 in
  let b2 := -6.2462e-1 in
  let b3 := 7.4761e-3 in
  let b4 := 1.3836e-3 in
  let b5 := -6.7157e-6 in
  let b6 := 5.1993e-4 in
  let b7 := 9.9176e-9 in
  let b8 := 6.6448e1 in
  let b9 := 2.0681e-1 in
  let g_sw_P0 :=
    if S >? 0 then
      b1 * S + b2 * S * T + b3 * S * T ^ 2 +
      b4 * S ^ 2 * T + b5 * S ^ 2 * T ^ 2 +
      b6 * S ^ 3 + b7 * S ^ 3 * T ^ 2 +
      b8 * S * Math_log S + b9 * S * T * Math_log S
    else 0 in
  let c1 := 996.1978 in
  let c2 := 3.491e-2 in
  let c3 := 4.7231e-3 in
  let c4 := -6.9037e-6 in
  let c5 := -7.2431e-1 in
  let c6 := 1.5712e-3 in
  let c7 := -1.8919e-5 in
  let c8 := 2.5939e-8 in
  let g_sw_P := (P - P0) * (c1 + c2 * T + c3 * T ^ 2 + c4 * T ^ 3 +
                S * (c5 + c6 * T + c7 * T ^ 2 + c8 * T ^ 3)) in
  g_w + g_sw_P0 + g_sw_P.

(** The arithmetic of [SW_SpcHeat] (lines 952-977), as a function of the
    reference pressure [P0] it is computed with. *)
Definition SpcHeat_correlation (T S P P0 : R) : R :=
  let T68 := 1.00024 * T in
  let SP := S / 1.00472 in
  let A := 5.328 - 9.76e-2 * SP + 4.04e-4 * SP ^ 2 in
  let B := -6.913e-3 + 7.351e-4 * SP - 3.15e-6 * SP ^ 2 in
  let C := 9.6e-6 - 1.927e-6 * SP + 8.23e-9 * SP ^ 2 in
  let D := 2.5e-9 + 1.666e-9 * SP - 7.125e-12 * SP ^ 2 in
  let cp_sw_P0 := 1000 * (A + B * T68 + C * T68 ^ 2 + D * T68 ^ 3) in
  let c1 := -3.1118 in
  let c2 := 0.0157 in
  let c3 := 5.1014e-5 in
  let c4 := -1.0302e-6 in
  let c5 := 0.0107 in
  let c6 := -3.9716e-5 in
  let c7 := 3.2088e-8 in
  let c8 := 1.0119e-9 in
  let cp_sw_P := (P - P0) * (c1 + c2 * T + c3 * T ^ 2 + c4 * T ^ 3 +
                 S * (c5 + c6 * T + c7 * T ^ 2 + c8 * T ^ 3)) in
  cp_sw_P0 + cp_sw_P.

(** The arithmetic of [SW_IsobExp] (lines 625-682), as a function of the
    reference pressure [P0] it is computed with. *)
Definition IsobExp_correlation (T S P P0 : R) : R :=
  let S_kgkg := S / 1000 in
  let a1 := 9.9992293295e2 in
  let a2 := 2.0341179217e-2 in
  let a3 := -6.1624591598e-3 in
  let a4 := 2.2614664708e-5 in
  let a5 := -4.6570659168e-8 in
  let b1 := 8.0200240891e2 in
  let b2 := -2.0005183488 in
  let b3 := 1.6771024982e-2 in
  let b4 := -3.0600536746e-5 in
  let b5 := -1.6132224742e-5 in
  let drho_wdT := a2 + 2 * a3 * T + 3 * a4 * T ^ 2 + 4 * a5 * T ^ 3 in
  let dD_rhodT := b2 * S_kgkg + 2 * b3 * S_kgkg * T + 3 * b4 * S_kgkg * T ^ 2 +
                  2 * b5 * S_kgkg ^ 2 * T in
  let rho_w := a1 + a2 * T + a3 * T ^ 2 + a4 * T ^ 3 + a5 * T ^ 4 in
  let D_rho := b1 * S_kgkg + b2 * S_kgkg * T + b3 * S_kgkg * T ^ 2 +
               b4 * S_kgkg * T ^ 3 + b5 * S_kgkg ^ 2 * T ^ 2 in
  let rho_sw_sharq := rho_w + D_rho in
  let drho_sw_sharqdT := drho_wdT + dD_rhodT in
  let c1 := 5.0792e-4 in
  let c2 := -3.4168e-6 in
  let c3 := 5.6931e-8 in
  let c4 := -3.7263e-10 in
  let c5 := 1.4465e-12 in
  let c6 := -1.7058e-15 in
  let c7 := -1.3389e-6 in
  let c8 := 4.8603e-9 in
  let c9 := -6.8039e-13 in
  let d1 := -1.1077e-6 in
  let d2 := 5.5584e-9 in
  let d3 := -4.2539e-11 in
  let d4 := 8.3702e-9 in
  let F_P := Math_exp ((P - P0) * (c1 + c2 * T + c3 * T ^ 2 +
             c4 * T ^ 3 + c5 * T ^ 4 + c6 * T ^ 5 +
             S * (d1 + d2 * T + d3 * T ^ 2)) +
             0.5 * (P ^ 2 - P0 ^ 2) *
             (c7 + c8 * T + c9 * T ^ 3 + d4 * S)) in
  let dF_PdT := F_P * ((P - P0) * (c2 + 2 * c3 * T + 3 * c4 * T ^ 2 +
                4 * c5 * T ^ 3 + 5 * c6 * T ^ 4 +
                S * (d2 + 2 * d3 * T)) +
                0.5 * (P ^ 2 - P0 ^ 2) *
                (c8 + 3 * c9 * T ^ 2)) in
  let rho := rho_sw_sharq * F_P in
  let drho_dT := drho_sw_sharqdT * F_P + rho_sw_sharq * dF_PdT in
  - drho_dT / rho.

(** The arithmetic of [SW_ChemPot_s] (lines 71-95), as a function of the
    reference pressure [P0] and of the Gibbs energy [g] it is computed
    with. *)
Definition ChemPot_s_correlation (T S P P0 g : R) : R :=
  let b1 := -2.4176e2 in
  let b2 := -6.2462e-1 in
  let b3 := 7.4761e-3 in
  let b4 := 1.3836e-3 in
  let b5 := -6.7157e-6 in
  let b6 := 5.1993e-4 in
  let b7 := 9.9176e-9 in
  let b8 := 6.6448e1 in
  let b9 := 2.0681e-1 in
  let dg_ds_P0 := b1 + b2 * T + b3 * T ^ 2 +
                  2 * b4 * S * T + 2 * b5 * S * T ^ 2 +
                  3 * b6 * S ^ 2 + 3 * b7 * S ^ 2 * T ^ 2 +
                  b8 * (Math_log S + 1) + b9 * T * (Math_log S + 1) in
  let c5 := -7.2431e-1 in
  let c6 := 1.5712e-3 in
  let c7 := -1.8919e-5 in
  let c8 := 2.5939e-8 in
  let dg_ds_P := (P - P0) * (c5 + c6 * T + c7 * T ^ 2 + c8 * T ^ 3) in
  let dg_ds := dg_ds_P0 + dg_ds_P in
  let mu_s := g + (1000 - S) * dg_ds in
  mu_s.

(** The arithmetic of [SW_ChemPot_w] (lines 132-161), as a function of the
    reference pressure [P0] and of the Gibbs energy [g] it is computed
    with. *)
Definition ChemPot_w_correlation (T S P P0 g : R) : R :=
  let b1 := -2.4176e2 in
  let b2 := -6.2462e-1 in
  let b3 := 7.4761e-3 in
  let b4 := 1.3836e-3 in
  let b5 := -6.7157e-6 in
  let b6 := 5.1993e-4 in
  let b7 := 9.9176e-9 in
  let b8 := 6.6448e1 in
  let b9 := 2.0681e-1 in
  let Sdg_dS :=
    if S >? 0 then
      let dg_ds_P0 := b1 + b2 * T + b3 * T ^ 2 +
                      2 * b4 * S * T + 2 * b5 * S * T ^ 2 +
                      3 * b6 * S ^ 2 + 3 * b7 * S ^ 2 * T ^ 2 +
                      b8 * (Math_log S + 1) + b9 * T * (Math_log S + 1) in
      let c5 := -7.2431e-1 in
      let c6 := 1.5712e-3 in
      let c7 := -1.8919e-5 in
      let c8 := 2.5939e-8 in
      let dg_ds_P := (P - P0) * (c5 + c6 * T + c7 * T ^ 2 + c8 * T ^ 3) in
      let dg_ds := dg_ds_P0 + dg_ds_P in
      S * dg_ds
    else 0 in
  g - Sdg_dS.

(** ** The range checks and their messages *)

(** The variable a range check examines. *)
Inductive variable : Type := Temperature | Salinity | ReferenceSalinity.

(** A bound as the messages spell it: a whole number, or a number of
    tenths. *)
Inductive bound : Type :=
| Whole (n : Z)
| Tenths (n : Z).

Definition bound_value (b : bound) : R :=
  match b with
  | Whole n => IZR n
  | Tenths n => IZR n / 10
  end.

Definition Z_text (n : Z) : string := NilZero.string_of_int (Z.to_int n).

Definition bound_text (b : bound) : string :=
  match b with
  | Whole n => Z_text n
  | Tenths n => Z_text (n / 10) ++ "." ++ Z_text (n mod 10)
  end.

(** The checks of the file: a variable against a fixed range; the pressure
    against the window from the saturation pressure to a fixed maximum;
    and the combined check of the chemical potentials, whose message
    lists a narrower temperature range, a narrower salinity range and the
    pressure window. *)
Inductive check : Type :=
| Range (v : variable) (lo hi : bound)
| Window (hi : bound)
| Combined (T_lo T_hi S_lo S_hi P_hi : bound).

(** How the messages call each function. *)
Definition function_phrase (f : public_function) : string :=
  match f with
  | Fn_BPE => "boiling point elevation"
  | Fn_ChemPot_s => "the chemical potential of salt"
  | Fn_ChemPot_w => "the chemical potential of water"
  | Fn_Conductivity => "thermal conductivity"
  | Fn_ConductivityP => "pressure-dependent thermal conductivity"
  | Fn_Density => "density"
  | Fn_Diffusivity => "diffusivity"
  | Fn_Enthalpy => "enthalpy"
  | Fn_Entropy => "entropy"
  | Fn_FlowExergy => "flow exergy"
  | Fn_Gibbs => "Gibbs"
  | Fn_IntEnergy => "internal energy"
  | Fn_IsobExp => "isobaric expansivity"
  | Fn_IsothComp => "isothermal compressibility"
  | Fn_Kviscosity => "kinematic viscosity"
  | Fn_LatentHeat => "latent heat"
  | Fn_OsmCoeff => "osmotic coefficient"
  | Fn_OsmPress => "osmotic pressure"
  | Fn_Psat => "vapor pressure"
  | Fn_Prandtl => "Prandtl"
  | Fn_SpcHeat => "specific heat capacity"
  | Fn_SurfaceTension => "surface tension"
  | Fn_Viscosity => "viscosity"
  | Fn_Volume => "specific volume"
  end.

(** The text thrown when a check of function [f] fails. *)
Definition message_of (f : public_function) (c : check) : string :=
  match c with
  | Range Temperature lo hi =>
      "Temperature is out of range for " ++ function_phrase f ++ " function " ++
      bound_text lo ++ " < T < " ++ bound_text hi ++ " C"
  | Range Salinity lo hi =>
      "Salinity is out of range for " ++ function_phrase f ++ " function " ++
      bound_text lo ++ " < S < " ++ bound_text hi ++ " g/kg"
  | Range ReferenceSalinity lo hi =>
      "Reference salinity is out of allowed range for " ++ function_phrase f ++
      " function " ++ bound_text lo ++ " < S0 < " ++ bound_text hi
  | Window hi =>
      "Pressure is out of range for " ++ function_phrase f ++
      " function P_sat < P < " ++ bound_text hi ++ " MPa"
  | Combined T_lo T_hi S_lo S_hi P_hi =>
      "Salinity is out of range for " ++ function_phrase f ++ " function " ++
      bound_text T_lo ++ " < T < " ++ bound_text T_hi ++ " C; " ++
      bound_text S_lo ++ " < S < " ++ bound_text S_hi ++ " g/kg; P_sat < P < " ++
      bound_text P_hi ++ " MPa"
  end.

(** The checks each function makes itself, in the order of its [throw]
    statements. *)
Definition own_checks (f : public_function) : list check :=
  match f with
  | Fn_BPE =>
      [ Range Temperature (Whole 0) (Whole 200);
        Range Salinity (Whole 0) (Whole 120) ]
  | Fn_ChemPot_s =>
      [ Range Temperature (Whole 10) (Whole 80);
        Range Salinity (Tenths 1) (Whole 120);
        Window (Whole 12);
        Combined (Whole 10) (Whole 40) (Tenths 1) (Whole 42) (Whole 12) ]
  | Fn_ChemPot_w =>
      [ Range Temperature (Whole 10) (Whole 80);
        Range Salinity (Whole 0) (Whole 120);
        Window (Whole 12);
        Combined (Whole 10) (Whole 40) (Whole 0) (Whole 42) (Whole 12) ]
  | Fn_Conductivity =>
      [ Range Temperature (Whole 0) (Whole 180);
        Range Salinity (Whole 0) (Whole 160) ]
  | Fn_ConductivityP =>
      [ Range Temperature (Whole 10) (Whole 90);
        Range Salinity (Whole 0) (Whole 120);
        Window (Whole 12) ]
  | Fn_Density =>
      [ Range Temperature (Whole 0) (Whole 180);
        Range Salinity (Whole 0) (Whole 150);
        Window (Whole 12) ]
  | Fn_Diffusivity =>
      [ Range Temperature (Whole 0) (Whole 180);
        Range Salinity (Whole 0) (Whole 150) ]
  | Fn_Enthalpy =>
      [ Range Temperature (Whole 10) (Whole 120);
        Range Salinity (Whole 0) (Whole 120);
        Window (Whole 12) ]
  | Fn_Entropy =>
      [ Range Temperature (Whole 10) (Whole 120);
        Range Salinity (Whole 0) (Whole 120);
        Window (Whole 12) ]
  | Fn_FlowExergy =>
      [ Range Temperature (Whole 10) (Whole 80);
        Range Salinity (Whole 0) (Whole 120);
        Window (Whole 12);
        Range ReferenceSalinity (Tenths 1) (Whole 120) ]
  | Fn_Gibbs =>
      [ Range Temperature (Whole 10) (Whole 120);
        Range Salinity (Whole 0) (Whole 120);
        Window (Whole 12) ]
  | Fn_IntEnergy =>
      [ Range Temperature (Whole 10) (Whole 120);
        Range Salinity (Whole 0) (Whole 120);
        Window (Whole 12) ]
  | Fn_IsobExp =>
      [ Range Temperature (Whole 0) (Whole 180);
        Range Salinity (Whole 0) (Whole 150);
        Window (Whole 12) ]
  | Fn_IsothComp =>
      [ Range Temperature (Whole 0) (Whole 180);
        Range Salinity (Whole 0) (Whole 160);
        Window (Whole 12) ]
  | Fn_Kviscosity =>
      [ Range Temperature (Whole 0) (Whole 180);
        Range Salinity (Whole 0) (Whole 150) ]
  | Fn_LatentHeat =>
      [ Range Temperature (Whole 0) (Whole 200);
        Range Salinity (Whole 0) (Whole 240) ]
  | Fn_OsmCoeff =>
      [ Range Temperature (Whole 0) (Whole 120);
        Range Salinity (Whole 0) (Whole 120) ]
  | Fn_OsmPress =>
      [ Range Temperature (Whole 0) (Whole 120);
        Range Salinity (Whole 0) (Whole 120) ]
  | Fn_Psat =>
      [ Range Temperature (Whole 0) (Whole 180);
        Range Salinity (Whole 0) (Whole 160) ]
  | Fn_Prandtl =>
      [ Range Temperature (Whole 0) (Whole 180);
        Range Salinity (Whole 0) (Whole 150) ]
  | Fn_SpcHeat =>
      [ Range Temperature (Whole 0) (Whole 180);
        Range Salinity (Whole 0) (Whole 180);
        Window (Whole 12) ]
  | Fn_SurfaceTension =>
      [ Range Temperature (Whole 0) (Whole 100);
        Range Salinity (Whole 0) (Whole 131) ]
  | Fn_Viscosity =>
      [ Range Temperature (Whole 0) (Whole 180);
        Range Salinity (Whole 0) (Whole 150) ]
  | Fn_Volume =>
      [ Range Temperature (Whole 0) (Whole 180);
        Range Salinity (Whole 0) (Whole 150) ]
  end.

(** A call of an exported function, with its arguments. *)
Record invocation : Type := Call {
  callee : public_function;
  arg_T : R;
  arg_S : R;
  arg_P : R;
  arg_T0 : option R;
  arg_S0 : option R;
  arg_P0 : option R
}.

(** The value a range check examines: an argument, or the dead-state
    salinity after its default. *)
Definition examined (v : variable) (i : invocation) : R :=
  match v with
  | Temperature => arg_T i
  | Salinity => arg_S i
  | ReferenceSalinity => or_default (arg_S0 i) 35
  end.

(** A check is violated by a call when the examined value lies outside
    the bound the message spells: the variable outside its range; the
    pressure below the saturation pressure of the call's (T, S) or above
    the maximum; for the combined check, the salinity or the temperature
    above its narrower maximum, at a pressure above the reference
    pressure. *)
Definition violated (c : check) (i : invocation) : Prop :=
  match c with
  | Range v lo hi =>
      examined v i < bound_value lo \/ bound_value hi < examined v i
  | Window hi =>
      exists Psat,
        SW_Psat (arg_T i) (arg_S i) = Return Psat /\
        (arg_P i < Psat / 1e6 \/ bound_value hi < arg_P i)
  | Combined T_lo T_hi S_lo S_hi P_hi =>
      exists P0,
        resolvePressureReference (arg_T i) (arg_S i) = Return P0 /\
        P0 < arg_P i /\
        (bound_value S_hi < arg_S i \/ bound_value T_hi < arg_T i)
  end.

(** The calls a call makes, with the arguments it passes (the call sites
    of the file).  A function of two parameters ignores the pressure it
    is listed with, and no callee reads a dead state. *)
Inductive subcall : invocation -> invocation -> Prop :=
| ChemPot_s_Psat T S P d1 d2 d3 :
    subcall (Call Fn_ChemPot_s T S P d1 d2 d3) (Call Fn_Psat T S P None None None)
| ChemPot_s_Gibbs T S P d1 d2 d3 :
    subcall (Call Fn_ChemPot_s T S P d1 d2 d3) (Call Fn_Gibbs T S P None None None)
| ChemPot_w_Psat T S P d1 d2 d3 :
    subcall (Call Fn_ChemPot_w T S P d1 d2 d3) (Call Fn_Psat T S P None None None)
| ChemPot_w_Gibbs T S P d1 d2 d3 :
    subcall (Call Fn_ChemPot_w T S P d1 d2 d3) (Call Fn_Gibbs T S P None None None)
| ConductivityP_Psat T S P d1 d2 d3 :
    subcall (Call Fn_ConductivityP T S P d1 d2 d3) (Call Fn_Psat T S P None None None)
| Density_Psat T S P d1 d2 d3 :
    subcall (Call Fn_Density T S P d1 d2 d3) (Call Fn_Psat T S P None None None)
| Diffusivity_Psat T S P d1 d2 d3 :
    100 <= T ->
    subcall (Call Fn_Diffusivity T S P d1 d2 d3) (Call Fn_Psat T S P None None None)
| Diffusivity_Density T S P d1 d2 d3 P0 :
    resolvePressureReference T S = Return P0 ->
    subcall (Call Fn_Diffusivity T S P d1 d2 d3) (Call Fn_Density T S P0 None None None)
| Diffusivity_SpcHeat T S P d1 d2 d3 P0 :
    resolvePressureReference T S = Return P0 ->
    subcall (Call Fn_Diffusivity T S P d1 d2 d3) (Call Fn_SpcHeat T S P0 None None None)
| Diffusivity_Conductivity T S P d1 d2 d3 :
    subcall (Call Fn_Diffusivity T S P d1 d2 d3) (Call Fn_Conductivity T S P None None None)
| Enthalpy_Psat T S P d1 d2 d3 :
    subcall (Call Fn_Enthalpy T S P d1 d2 d3) (Call Fn_Psat T S P None None None)
| Entropy_Psat T S P d1 d2 d3 :
    subcall (Call Fn_Entropy T S P d1 d2 d3) (Call Fn_Psat T S P None None None)
| FlowExergy_Psat T S P d1 d2 d3 :
    subcall (Call Fn_FlowExergy T S P d1 d2 d3) (Call Fn_Psat T S P None None None)
| FlowExergy_Enthalpy T S P d1 d2 d3 :
    subcall (Call Fn_FlowExergy T S P d1 d2 d3) (Call Fn_Enthalpy T S P None None None)
| FlowExergy_Entropy T S P d1 d2 d3 :
    subcall (Call Fn_FlowExergy T S P d1 d2 d3) (Call Fn_Entropy T S P None None None)
| FlowExergy_Enthalpy_dead T S P d1 d2 d3 :
    subcall (Call Fn_FlowExergy T S P d1 d2 d3)
            (Call Fn_Enthalpy (or_default d1 25) S (or_default d3 0.101325) None None None)
| FlowExergy_Entropy_dead T S P d1 d2 d3 :
    subcall (Call Fn_FlowExergy T S P d1 d2 d3)
            (Call Fn_Entropy (or_default d1 25) S (or_default d3 0.101325) None None None)
| FlowExergy_ChemPot_w_dead T S P d1 d2 d3 :
    subcall (Call Fn_FlowExergy T S P d1 d2 d3)
            (Call Fn_ChemPot_w (or_default d1 25) S (or_default d3 0.101325) None None None)
| Gibbs_Psat T S P d1 d2 d3 :
    subcall (Call Fn_Gibbs T S P d1 d2 d3) (Call Fn_Psat T S P None None None)
| IntEnergy_Psat T S P d1 d2 d3 :
    subcall (Call Fn_IntEnergy T S P d1 d2 d3) (Call Fn_Psat T S P None None None)
| IntEnergy_Density T S P d1 d2 d3 :
    subcall (Call Fn_IntEnergy T S P d1 d2 d3) (Call Fn_Density T S P None None None)
| IntEnergy_Enthalpy T S P d1 d2 d3 :
    subcall (Call Fn_IntEnergy T S P d1 d2 d3) (Call Fn_Enthalpy T S P None None None)
| IsobExp_Psat T S P d1 d2 d3 :
    subcall (Call Fn_IsobExp T S P d1 d2 d3) (Call Fn_Psat T S P None None None)
| IsothComp_Psat T S P d1 d2 d3 :
    subcall (Call Fn_IsothComp T S P d1 d2 d3) (Call Fn_Psat T S P None None None)
| Kviscosity_Psat T S P d1 d2 d3 :
    100 <= T ->
    subcall (Call Fn_Kviscosity T S P d1 d2 d3) (Call Fn_Psat T S P None None None)
| Kviscosity_Density T S P d1 d2 d3 P0 :
    resolvePressureReference T S = Return P0 ->
    subcall (Call Fn_Kviscosity T S P d1 d2 d3) (Call Fn_Density T S P0 None None None)
| Kviscosity_Viscosity T S P d1 d2 d3 :
    subcall (Call Fn_Kviscosity T S P d1 d2 d3) (Call Fn_Viscosity T S P None None None)
| OsmPress_OsmCoeff T S P d1 d2 d3 :
    subcall (Call Fn_OsmPress T S P d1 d2 d3) (Call Fn_OsmCoeff T S P None None None)
| OsmPress_Psat T S P d1 d2 d3 :
    100 <= T ->
    subcall (Call Fn_OsmPress T S P d1 d2 d3) (Call Fn_Psat T 0 P None None None)
| OsmPress_Density T S P d1 d2 d3 P0 :
    resolvePressureReference T 0 = Return P0 ->
    subcall (Call Fn_OsmPress T S P d1 d2 d3) (Call Fn_Density T 0 P0 None None None)
| Prandtl_Psat T S P d1 d2 d3 :
    100 <= T ->
    subcall (Call Fn_Prandtl T S P d1 d2 d3) (Call Fn_Psat T S P None None None)
| Prandtl_SpcHeat T S P d1 d2 d3 P0 :
    resolvePressureReference T S = Return P0 ->
    subcall (Call Fn_Prandtl T S P d1 d2 d3) (Call Fn_SpcHeat T S P0 None None None)
| Prandtl_Viscosity T S P d1 d2 d3 :
    subcall (Call Fn_Prandtl T S P d1 d2 d3) (Call Fn_Viscosity T S P None None None)
| Prandtl_Conductivity T S P d1 d2 d3 :
    subcall (Call Fn_Prandtl T S P d1 d2 d3) (Call Fn_Conductivity T S P None None None)
| SpcHeat_Psat T S P d1 d2 d3 :
    subcall (Call Fn_SpcHeat T S P d1 d2 d3) (Call Fn_Psat T S P None None None)
| Volume_Density T S P d1 d2 d3 :
    subcall (Call Fn_Volume T S P d1 d2 d3) (Call Fn_Density T S P None None None).

(** The call chain: a call, the calls it makes, the calls those make. *)
Inductive reaches (i : invocation) : invocation -> Prop :=
| reaches_itself : reaches i i
| reaches_then j k : reaches i j -> subcall j k -> reaches i k.

(** A message is accounted for when it is the message of a check of a
    function in the call chain, and the call of that function violates
    the check. *)
Definition accounts_for (i : invocation) (m : string) : Prop :=
  exists j c,
    reaches i j /\ In c (own_checks (callee j)) /\ violated c j /\
    m = message_of (callee j) c.

(** Whatever the computation throws is an [Error] accounted for. *)
Definition accounted (i : invocation) (c : completion R) : Prop :=
  forall e, c = Throw e -> exists m, e = Error m /\ accounts_for i m.

(** Whatever the computation throws as an [Error] is accounted for. *)
Definition errors_accounted (i : invocation) (c : completion R) : Prop :=
  forall m, c = Throw (Error m) -> accounts_for i m.

(** ** What a failing call may throw *)

(** A computation that has no way to return. *)
Definition never_returns (c : completion R) : Prop :=
  forall v, c <> Return v.

(** ** The saturation-pressure exponent *)

(** The exponent of the pure-water vapor pressure, at absolute temperature
    [T_K]. *)
Definition Pv_w_exponent (T_K : R) : R :=
  -5800.2206 / T_K + 1.3914993 + -0.048640239 * T_K + 0.000041764768 * T_K ^ 2 +
  -0.000000014452093 * T_K ^ 3 + 6.5459673 * ln T_K.

(** ** The ranges the functions check *)

(** The temperature bounds of the first check of each exported function. *)
Definition temperature_range (f : public_function) : R * R :=
  match f with
  | Fn_BPE | Fn_LatentHeat => (0, 200)
  | Fn_ChemPot_s | Fn_ChemPot_w | Fn_FlowExergy => (10, 80)
  | Fn_ConductivityP => (10, 90)
  | Fn_Enthalpy | Fn_Entropy | Fn_Gibbs | Fn_IntEnergy => (10, 120)
  | Fn_OsmCoeff | Fn_OsmPress => (0, 120)
  | Fn_SurfaceTension => (0, 100)
  | _ => (0, 180)
  end.

(** The salinity bounds of the second check of each exported function. *)
Definition salinity_range (f : public_function) : R * R :=
  match f with
  | Fn_ChemPot_s => (0.1, 120)
  | Fn_Density | Fn_Diffusivity | Fn_IsobExp | Fn_Kviscosity | Fn_Prandtl
  | Fn_Viscosity | Fn_Volume => (0, 150)
  | Fn_Conductivity | Fn_IsothComp | Fn_Psat => (0, 160)
  | Fn_SpcHeat => (0, 180)
  | Fn_LatentHeat => (0, 240)
  | Fn_SurfaceTension => (0, 131)
  | _ => (0, 120)
  end.

(** The exported functions that compare their pressure argument with the
    window from the saturation pressure to 12 MPa, themselves or, for
    [SW_Volume], through the density call. *)
Definition checks_pressure (f : public_function) : bool :=
  match f with
  | Fn_ChemPot_s | Fn_ChemPot_w | Fn_ConductivityP | Fn_Density | Fn_Enthalpy
  | Fn_Entropy | Fn_FlowExergy | Fn_Gibbs | Fn_IntEnergy | Fn_IsobExp
  | Fn_IsothComp | Fn_SpcHeat | Fn_Volume => true
  | _ => false
  end.

(** A call that returns. *)
Definition returns (c : completion R) : Prop := exists v, c = Return v.

(** * Proofs *)

(** ** Comparisons *)

Lemma ltb_true (x y : R) : x < y -> (x <? y) = true.
Proof. intros H. unfold ltb. destruct (Rlt_dec x y); [reflexivity | contradiction]. Qed.

Lemma ltb_false (x y : R) : y <= x -> (x <? y) = false.
Proof. intros H. unfold ltb. destruct (Rlt_dec x y); [lra | reflexivity]. Qed.

Lemma leb_true (x y : R) : x <= y -> (x <=? y) = true.
Proof. intros H. unfold leb. destruct (Rle_dec x y); [reflexivity | contradiction]. Qed.

Lemma leb_false (x y : R) : y < x -> (x <=? y) = false.
Proof. intros H. unfold leb. destruct (Rle_dec x y); [lra | reflexivity]. Qed.

(** Decide every comparison of the goal that the context settles. *)
Ltac cmp_step :=
  match goal with
  | |- context [ltb ?a ?b] =>
      first [ rewrite (ltb_true a b) by lra | rewrite (ltb_false a b) by lra ]
  | |- context [leb ?a ?b] =>
      first [ rewrite (leb_true a b) by lra | rewrite (leb_false a b) by lra ]
  end.

Ltac cmp := unfold gtb, geb; repeat cmp_step; cbn [orb andb negb].

(** ** Bounds on the saturation pressure *)

Lemma SW_Psat_in_range (T S : R) :
  0 <= T <= 180 -> 0 <= S <= 160 ->
  SW_Psat T S =
  Return (exp (Pv_w_exponent (T + 273.15)) * exp (-4.5818e-4 * S + -2.0443e-6 * S ^ 2)).
Proof.
  intros HT HS. unfold SW_Psat. cmp. reflexivity.
Qed.

Lemma exp_nat_mult (n : nat) (x : R) : exp (INR n * x) = exp x ^ n.
Proof.
  induction n as [|n IH].
  - simpl. rewrite Rmult_0_l. apply exp_0.
  - rewrite S_INR, Rmult_plus_distr_r, Rmult_1_l, exp_plus, IH. simpl. ring.
Qed.

Lemma exp_1_lower : 2.7 <= exp 1.
Proof.
  replace 1 with (INR 128 * (1 / 128)) by (simpl; lra).
  rewrite exp_nat_mult.
  apply Rle_trans with ((1 + 1 / 128) ^ 128); [lra|].
  apply pow_incr. split; [lra | apply exp_ineq1_le].
Qed.

Lemma exp_1_upper : exp 1 <= 2.74.
Proof.
  replace 1 with (INR 64 * (1 / 64)) by (simpl; lra).
  rewrite exp_nat_mult.
  apply Rle_trans with ((64 / 63) ^ 64); [|lra].
  apply pow_incr. split; [left; apply exp_pos|].
  replace (1 / 64) with (- - (1 / 64)) by lra.
  rewrite exp_Ropp.
  assert (H : 63 / 64 <= exp (- (1 / 64))).
  { replace (63 / 64) with (1 + - (1 / 64)) by lra. apply exp_ineq1_le. }
  replace (64 / 63) with (/ (63 / 64)) by lra.
  apply Rinv_le_contravar; lra.
Qed.

Lemma exp_le_mono (x y : R) : x <= y -> exp x <= exp y.
Proof.
  intros [H | ->]; [left; apply exp_increasing; exact H | right; reflexivity].
Qed.

Lemma exp_upper (n : nat) (x : R) : x <= INR n -> exp x <= 2.74 ^ n.
Proof.
  intros H. apply Rle_trans with (exp (INR n * 1)).
  - apply exp_le_mono. lra.
  - rewrite exp_nat_mult. apply pow_incr.
    split; [left; apply exp_pos | apply exp_1_upper].
Qed.

Lemma ln_le_6 (x : R) : 0 < x <= 387 -> ln x <= 6.
Proof.
  intros [H0 H]. rewrite <- (ln_exp 6).
  assert (H6 : 387 <= exp 6).
  { replace 6 with (INR 6 * 1) by (simpl; lra). rewrite exp_nat_mult.
    apply Rle_trans with (2.7 ^ 6); [lra|].
    apply pow_incr. split; [lra | apply exp_1_lower]. }
  destruct (Rle_lt_or_eq_dec x (exp 6)) as [Hlt | ->]; [lra | | right; reflexivity].
  left. apply ln_increasing; assumption.
Qed.

Lemma salinity_factor_le_1 (S : R) :
  0 <= S -> exp (-4.5818e-4 * S + -2.0443e-6 * S ^ 2) <= 1.
Proof.
  intros H. rewrite <- exp_0. apply exp_le_mono. nra.
Qed.

(** A bound on the exponent bounds the saturation pressure. *)
Lemma SW_Psat_bounded (n : nat) (T S : R) :
  0 <= T <= 180 -> 0 <= S <= 160 ->
  Pv_w_exponent (T + 273.15) <= INR n ->
  exists Psat, SW_Psat T S = Return Psat /\ 0 < Psat <= 2.74 ^ n.
Proof.
  intros HT HS HE. eexists. split; [apply SW_Psat_in_range; assumption|].
  pose proof (exp_pos (Pv_w_exponent (T + 273.15))) as Hp.
  pose proof (exp_pos (-4.5818e-4 * S + -2.0443e-6 * S ^ 2)) as Hs.
  pose proof (salinity_factor_le_1 S (proj1 HS)) as Hs1.
  pose proof (exp_upper n _ HE) as Hu.
  split; [apply Rmult_lt_0_compat; assumption | nra].
Qed.

Lemma Pv_w_exponent_25 : Pv_w_exponent (25 + 273.15) <= INR 11.
Proof.
  unfold Pv_w_exponent.
  assert (H : ln (25 + 273.15) <= 6) by (apply ln_le_6; lra).
  simpl INR. lra.
Qed.

Lemma Pv_w_exponent_50 : Pv_w_exponent (50 + 273.15) <= INR 11.
Proof.
  unfold Pv_w_exponent.
  assert (H : ln (50 + 273.15) <= 6) by (apply ln_le_6; lra).
  simpl INR. lra.
Qed.

(** At 25 C and at 50 C the saturation pressure is below one atmosphere,
    whatever the salinity. *)
Lemma SW_Psat_25 (S : R) :
  0 <= S <= 160 ->
  exists Psat, SW_Psat 25 S = Return Psat /\ 0 < Psat /\ Psat / 1e6 <= 0.101325.
Proof.
  intros HS.
  destruct (SW_Psat_bounded 11 25 S) as (p & Hp & H0 & H1);
    [lra | assumption | apply Pv_w_exponent_25 |].
  exists p. repeat split; [assumption | assumption | lra].
Qed.

Lemma SW_Psat_50 (S : R) :
  0 <= S <= 160 ->
  exists Psat, SW_Psat 50 S = Return Psat /\ 0 < Psat /\ Psat / 1e6 <= 0.101325.
Proof.
  intros HS.
  destruct (SW_Psat_bounded 11 50 S) as (p & Hp & H0 & H1);
    [lra | assumption | apply Pv_w_exponent_50 |].
  exists p. repeat split; [assumption | assumption | lra].
Qed.

(** ** Calls that return *)

(** The two cases of the reference-pressure test. *)
Ltac split_100 T :=
  destruct (Rlt_dec T 100) as [?Hlt | ?Hge]; [| apply Rnot_lt_le in Hge].

(** Within its temperature and salinity range, and between the saturation
    pressure and 12 MPa, each pressure-explicit function returns. *)
Lemma SW_Density_returns (T S P : R) :
  0 <= T <= 180 -> 0 <= S <= 150 ->
  (exists Psat, SW_Psat T S = Return Psat /\ Psat / 1e6 <= P <= 12) ->
  exists rho, SW_Density T S P = Return rho.
Proof.
  intros HT HS H. unfold SW_Density, SW_Density_P0. cmp.
  destruct H as (p & Hp & Hr).
  split_100 T; cmp; rewrite ?Hp; cbn [bind]; cmp; eexists; reflexivity.
Qed.

Lemma SW_SpcHeat_returns (T S P : R) :
  0 <= T <= 180 -> 0 <= S <= 180 ->
  (exists Psat, SW_Psat T S = Return Psat /\ Psat / 1e6 <= P <= 12) ->
  exists cp, SW_SpcHeat T S P = Return cp.
Proof.
  intros HT HS H. unfold SW_SpcHeat, SW_SpcHeat_P0. cmp.
  destruct H as (p & Hp & Hr). rewrite Hp. cbn [bind]. cmp.
  split_100 T; cmp; rewrite ?Hp; cbn [bind]; eexists; reflexivity.
Qed.

Lemma SW_Conductivity_returns (T S : R) :
  0 <= T <= 180 -> 0 <= S <= 160 -> exists K, SW_Conductivity T S = Return K.
Proof.
  intros HT HS. unfold SW_Conductivity. cmp. eexists; reflexivity.
Qed.

Lemma SW_Enthalpy_returns (T S P : R) :
  10 <= T <= 120 -> 0 <= S <= 120 ->
  (exists Psat, SW_Psat T S = Return Psat /\ Psat / 1e6 <= P <= 12) ->
  exists h, SW_Enthalpy T S P = Return h.
Proof.
  intros HT HS H. unfold SW_Enthalpy, SW_Enthalpy_P0. cmp.
  destruct H as (p & Hp & Hr). rewrite Hp. cbn [bind]. cmp.
  split_100 T; cmp; rewrite ?Hp; cbn [bind]; eexists; reflexivity.
Qed.

Lemma SW_Entropy_returns (T S P : R) :
  10 <= T <= 120 -> 0 <= S <= 120 ->
  (exists Psat, SW_Psat T S = Return Psat /\ Psat / 1e6 <= P <= 12) ->
  exists s, SW_Entropy T S P = Return s.
Proof.
  intros HT HS H. unfold SW_Entropy, SW_Entropy_P0. cmp.
  destruct H as (p & Hp & Hr). rewrite Hp. cbn [bind]. cmp.
  split_100 T; cmp; rewrite ?Hp; cbn [bind]; eexists; reflexivity.
Qed.

Lemma SW_Gibbs_returns (T S P : R) :
  10 <= T <= 120 -> 0 <= S <= 120 ->
  (exists Psat, SW_Psat T S = Return Psat /\ Psat / 1e6 <= P <= 12) ->
  exists g, SW_Gibbs T S P = Return g.
Proof.
  intros HT HS H. unfold SW_Gibbs, SW_Gibbs_P0. cmp.
  destruct H as (p & Hp & Hr). rewrite Hp. cbn [bind]. cmp.
  split_100 T; cmp; rewrite ?Hp; cbn [bind]; eexists; reflexivity.
Qed.

(** The water chemical potential returns when, in addition, the combined
    bound of line 128 is respected. *)
Lemma SW_ChemPot_w_returns (T S P : R) :
  10 <= T <= 80 -> 0 <= S <= 120 ->
  (exists Psat, SW_Psat T S = Return Psat /\ Psat / 1e6 <= P <= 12) ->
  P <= 0.101325 \/ (S <= 42 /\ T <= 40) ->
  exists mu, SW_ChemPot_w T S P = Return mu.
Proof.
  intros HT HS H Hc.
  destruct (SW_Gibbs_returns T S P) as (g & Hg); [lra | lra | exact H |].
  unfold SW_ChemPot_w, SW_ChemPot_w_P0. cmp.
  destruct H as (p & Hp & Hr). rewrite Hp. cbn [bind]. cmp.
  destruct Hc as [Hc | Hc].
  - cmp. rewrite Hg. cbn [bind]. eexists; reflexivity.
  - destruct (Rlt_dec 0.101325 P); cmp; rewrite Hg; cbn [bind]; eexists; reflexivity.
Qed.

(** ** Domain errors of a dependency reach the caller *)

(** C9.  For every T in [0,180] C, every S with 160 < S <= 180 g/kg and
    any P, [SW_SpcHeat(T, S, P)] throws exactly what [SW_Psat(T, S)] throws
    when called directly: the salinity error of the vapor pressure
    function, with its 0-160 g/kg bound, neither wrapped nor reworded. *)
Theorem SW_SpcHeat_propagates_Psat_error (T S P : R) :
  0 <= T <= 180 -> 160 < S <= 180 ->
  SW_SpcHeat T S P = SW_Psat T S /\
  SW_Psat T S =
  Throw (Error "Salinity is out of range for vapor pressure function 0 < S < 160 g/kg").
Proof.
  intros HT HS.
  assert (H : SW_Psat T S =
    Throw (Error "Salinity is out of range for vapor pressure function 0 < S < 160 g/kg")).
  { unfold SW_Psat. cmp. reflexivity. }
  split; [| exact H].
  unfold SW_SpcHeat. cmp. rewrite H. reflexivity.
Qed.

Lemma SW_SpcHeat_propagates_Psat_error_witness :
  SW_SpcHeat 25 170 1 = SW_Psat 25 170 /\
  SW_Psat 25 170 =
  Throw (Error "Salinity is out of range for vapor pressure function 0 < S < 160 g/kg").
Proof.
  apply (SW_SpcHeat_propagates_Psat_error 25 170 1); lra.
Defined.

(** ** The combined bound of the chemical potentials *)

(** C10.  [SW_ChemPot_w] enforces the combined bound too: for T in
    [10,80] C, S in [0,120] g/kg and P in [Psat(T,S)/1e6, 12] MPa with
    P > 0.101325 MPa, if S > 42 g/kg or T > 40 C the call throws its range
    error instead of returning. *)
Theorem SW_ChemPot_w_combined_bound (T S P : R) :
  10 <= T <= 80 -> 0 <= S <= 120 ->
  (exists Psat, SW_Psat T S = Return Psat /\ Psat / 1e6 <= P <= 12) ->
  0.101325 < P ->
  S > 42 \/ T > 40 ->
  SW_ChemPot_w T S P =
  Throw (Error "Salinity is out of range for the chemical potential of water function 10 < T < 40 C; 0 < S < 42 g/kg; P_sat < P < 12 MPa").
Proof.
  intros HT HS H HP Hc.
  unfold SW_ChemPot_w, SW_ChemPot_w_P0. cmp.
  destruct H as (p & Hp & Hr). rewrite Hp. cbn [bind]. cmp.
  destruct Hc as [Hc | Hc]; cmp.
  - reflexivity.
  - rewrite orb_true_r. reflexivity.
Qed.

Lemma SW_ChemPot_w_combined_bound_witness :
  SW_ChemPot_w 25 50 12 =
  Throw (Error "Salinity is out of range for the chemical potential of water function 10 < T < 40 C; 0 < S < 42 g/kg; P_sat < P < 12 MPa").
Proof.
  apply (SW_ChemPot_w_combined_bound 25 50 12); try lra.
  destruct (SW_Psat_25 50) as (p & Hp & H0 & H1); [lra|].
  exists p. split; [exact Hp | lra].
Defined.

(** The salt chemical potential has the same check (line 67). *)
Lemma SW_ChemPot_s_combined_bound (T S P : R) :
  10 <= T <= 80 -> 0.1 <= S <= 120 ->
  (exists Psat, SW_Psat T S = Return Psat /\ Psat / 1e6 <= P <= 12) ->
  0.101325 < P ->
  S > 42 \/ T > 40 ->
  SW_ChemPot_s T S P =
  Throw (Error "Salinity is out of range for the chemical potential of salt function 10 < T < 40 C; 0.1 < S < 42 g/kg; P_sat < P < 12 MPa").
Proof.
  intros HT HS H HP Hc.
  unfold SW_ChemPot_s, SW_ChemPot_s_P0. cmp.
  destruct H as (p & Hp & Hr). rewrite Hp. cbn [bind]. cmp.
  destruct Hc as [Hc | Hc]; cmp.
  - reflexivity.
  - rewrite orb_true_r. reflexivity.
Qed.

(** ** Relations between the functions *)

(** C4.  For every (T, S, P) valid for both functions (T in [0,180] C,
    S in [0,150] g/kg, P in [Psat(T,S)/1e6, 12] MPa), the density call
    returns some rho and [SW_Volume(T, S, P)] returns exactly 1 / rho. *)
Theorem SW_Volume_is_reciprocal_density (T S P : R) :
  0 <= T <= 180 -> 0 <= S <= 150 ->
  (exists Psat, SW_Psat T S = Return Psat /\ Psat / 1e6 <= P <= 12) ->
  exists rho, SW_Density T S P = Return rho /\ SW_Volume T S P = Return (1 / rho).
Proof.
  intros HT HS H.
  destruct (SW_Density_returns T S P HT HS H) as (rho & Hrho).
  exists rho. split; [exact Hrho|].
  unfold SW_Volume. cmp. rewrite Hrho. reflexivity.
Qed.

Lemma SW_Volume_is_reciprocal_density_witness :
  exists rho,
    SW_Density 25 35 0.101325 = Return rho /\
    SW_Volume 25 35 0.101325 = Return (1 / rho).
Proof.
  apply (SW_Volume_is_reciprocal_density 25 35 0.101325); try lra.
  destruct (SW_Psat_25 35) as (p & Hp & H0 & H1); [lra|].
  exists p. split; [exact Hp | lra].
Defined.

(** Within the range of the diffusivity function the reference pressure
    is always resolved. *)
Lemma resolvePressureReference_returns (T S : R) :
  0 <= T <= 180 -> 0 <= S <= 160 ->
  exists P0, resolvePressureReference T S = Return P0.
Proof.
  intros HT HS. unfold resolvePressureReference.
  split_100 T; cmp; [eexists; reflexivity|].
  rewrite SW_Psat_in_range by assumption. eexists; reflexivity.
Qed.

(** C5.  For every (T, S) in the range of the diffusivity function (T in
    [0,180] C, S in [0,150] g/kg), with P0 the reference pressure of the
    rule (0.101325 MPa below 100 C, [SW_Psat(T, S)/1e6] from 100 C on):
    whenever the density, heat capacity and conductivity calls pass their
    own checks and return rho, cp and K, the diffusivity call returns
    K / (rho * cp). *)
Theorem SW_Diffusivity_consistency (T S P0 rho cp K : R) :
  0 <= T <= 180 -> 0 <= S <= 150 ->
  resolvePressureReference T S = Return P0 ->
  SW_Density T S P0 = Return rho ->
  SW_SpcHeat T S P0 = Return cp ->
  SW_Conductivity T S = Return K ->
  SW_Diffusivity T S = Return (K / (rho * cp)).
Proof.
  intros HT HS HP0 Hrho Hcp HK.
  unfold SW_Diffusivity, SW_Diffusivity_P0. cmp.
  unfold resolvePressureReference in HP0. rewrite HP0. cbn [bind].
  rewrite Hrho, Hcp, HK. reflexivity.
Qed.

Lemma SW_Diffusivity_consistency_witness :
  exists rho cp K,
    SW_Density 25 35 0.101325 = Return rho /\
    SW_SpcHeat 25 35 0.101325 = Return cp /\
    SW_Conductivity 25 35 = Return K /\
    SW_Diffusivity 25 35 = Return (K / (rho * cp)).
Proof.
  assert (HP : exists Psat,
             SW_Psat 25 35 = Return Psat /\ Psat / 1e6 <= 0.101325 <= 12).
  { destruct (SW_Psat_25 35) as (p & Hp & H0 & H1); [lra|].
    exists p. split; [exact Hp | lra]. }
  destruct (SW_Density_returns 25 35 0.101325) as (rho & Hrho); [lra | lra | exact HP |].
  destruct (SW_SpcHeat_returns 25 35 0.101325) as (cp & Hcp); [lra | lra | exact HP |].
  destruct (SW_Conductivity_returns 25 35) as (K & HK); [lra | lra |].
  exists rho, cp, K. repeat split; try assumption.
  apply (SW_Diffusivity_consistency 25 35 0.101325 rho cp K);
    try assumption; try lra.
  unfold resolvePressureReference. cmp. reflexivity.
Defined.

(** ** Zero salinity *)

(** C6.  [SW_Gibbs(50, 0, 0.101325)] does not throw and returns the
    pure-water polynomial a1 + a2 T + a3 T^2 + a4 T^3 + a5 T^4 at T = 50:
    the logarithmic salinity term is skipped and the pressure correction
    is zero. *)
Theorem SW_Gibbs_zero_salinity :
  SW_Gibbs 50 0 0.101325 =
  Return (1.0677e2 + -1.4303 * 50 + -7.6139 * 50 ^ 2 + 8.3627e-3 * 50 ^ 3 +
          -7.8754e-6 * 50 ^ 4).
Proof.
  destruct (SW_Psat_50 0) as (p & Hp & H0 & H1); [lra|].
  unfold SW_Gibbs, SW_Gibbs_P0. cmp. rewrite Hp. cbn [bind]. cmp.
  f_equal. lra.
Qed.

(** ** The anchor of the osmotic coefficient *)

(** C7.  For every T in [0,120] C, [SW_OsmCoeff(T, 10)], which takes the
    S <= 10 branch (1 - beta sqrt(m) + lambda m, with beta and lambda
    computed from the polynomial and its S-derivative at S = 10), equals
    over the reals the polynomial of the other branch at S = 10. *)
Theorem SW_OsmCoeff_anchor (T : R) :
  0 <= T <= 120 ->
  SW_OsmCoeff T 10 = Return (OsmCoeff_polynomial T 10).
Proof.
  intros HT. unfold SW_OsmCoeff. cmp. f_equal.
  unfold OsmCoeff_polynomial. cbv zeta.
  generalize (Math_pow (10 / (1000 - 10) * (1000 / 31.4038218)) 0.5).
  generalize (Math_pow (10 / (1000 - 10) * (1000 / 31.4038218)) (-0.5)).
  intros r' r. field. lra.
Qed.

Lemma SW_OsmCoeff_anchor_witness :
  SW_OsmCoeff 25 10 = Return (OsmCoeff_polynomial 25 10).
Proof.
  apply (SW_OsmCoeff_anchor 25). lra.
Defined.

(** Past the anchor the osmotic coefficient is the polynomial itself. *)
Lemma SW_OsmCoeff_direct (T S : R) :
  0 <= T <= 120 -> 10 < S <= 120 ->
  SW_OsmCoeff T S = Return (OsmCoeff_polynomial T S).
Proof.
  intros HT HS. unfold SW_OsmCoeff. cmp. reflexivity.
Qed.

(** ** The reference pressure *)

Lemma geb_ltb (x y : R) : (x >=? y) = negb (x <? y).
Proof.
  unfold geb, leb, ltb.
  destruct (Rle_dec y x), (Rlt_dec x y); try reflexivity; lra.
Qed.

(** ** Calls that cannot return *)

Lemma never_returns_throw (e : exn) : never_returns (Throw e).
Proof. intros v H. discriminate. Qed.

Lemma never_returns_if (b : bool) (c1 c2 : completion R) :
  never_returns c1 -> never_returns c2 -> never_returns (if b then c1 else c2).
Proof. destruct b; trivial. Qed.

Lemma never_returns_bind (c : completion R) (k : R -> completion R) :
  (forall v, never_returns (k v)) -> never_returns (x <- c ;; k x).
Proof.
  intros Hk. destruct c as [v | e]; cbn [bind]; [apply Hk | apply never_returns_throw].
Qed.

Ltac never_returns_step :=
  match goal with
  | |- never_returns (Throw _) => apply never_returns_throw
  | |- never_returns (if _ then _ else _) => apply never_returns_if
  | |- never_returns (bind (Throw _) _) => apply never_returns_throw
  | |- never_returns (bind _ _) => apply never_returns_bind; intros ?
  end.

Lemma SW_FlowExergy_never_returns (T S P : R) (T0 S0 P0 : option R) :
  never_returns (SW_FlowExergy T S P T0 S0 P0).
Proof.
  unfold SW_FlowExergy, SW_SChemPot_s, call_undeclared. cbv zeta.
  repeat never_returns_step.
Qed.

(** C2, as stated, fails: the error does not carry the offending value.
    The temperatures -1 and -2 are both rejected by [SW_Psat] with one and
    the same error, whose only content is the fixed message. *)
Lemma SW_Psat_error_omits_value :
  exists e,
    call Fn_Psat (-1) 0 0 None None None = Throw e /\
    call Fn_Psat (-2) 0 0 None None None = Throw e /\
    e = Error "Temperature is out of range for vapor pressure function 0 < T < 180 C".
Proof.
  eexists. cbn [call]. unfold SW_Psat. cmp. repeat split.
Qed.

(** ** Flow exergy *)

Lemma or_default_supplied (v d : R) : v <> 0 -> or_default (Some v) d = v.
Proof.
  intros H. unfold or_default. destruct (Req_dec_T v 0); [contradiction | reflexivity].
Qed.

Lemma or_default_zero (d : R) : or_default (Some 0) d = d.
Proof.
  unfold or_default. destruct (Req_dec_T 0 0); [reflexivity | contradiction].
Qed.

(** A missing dead-state argument takes its default: 25 C, 35 g/kg,
    0.101325 MPa. *)
Lemma SW_FlowExergy_defaults (T S P : R) :
  SW_FlowExergy T S P None None None =
  SW_FlowExergy T S P (Some 25) (Some 35) (Some 0.101325).
Proof.
  unfold SW_FlowExergy. rewrite !or_default_supplied by lra. reflexivity.
Qed.

(** A supplied dead-state salinity below 0.1 g/kg, other than 0, is
    rejected. *)
Lemma SW_FlowExergy_rejects_low_S0 (T S P S0 : R) (T0 P0 : option R) :
  10 <= T <= 80 -> 0 <= S <= 120 ->
  (exists Psat, SW_Psat T S = Return Psat /\ Psat / 1e6 <= P <= 12) ->
  S0 < 0.1 -> S0 <> 0 ->
  SW_FlowExergy T S P T0 (Some S0) P0 =
  Throw (Error "Reference salinity is out of allowed range for flow exergy function 0.1 < S0 < 120").
Proof.
  intros HT HS H HS0 Hne. unfold SW_FlowExergy. cmp.
  destruct H as (p & Hp & Hr). rewrite Hp. cbn [bind]. cmp.
  rewrite or_default_supplied by assumption. cmp. reflexivity.
Qed.

(** A supplied 0 is taken for a missing argument. *)
Lemma SW_FlowExergy_zero_S0 (T S P : R) (T0 P0 : option R) :
  SW_FlowExergy T S P T0 (Some 0) P0 = SW_FlowExergy T S P T0 None P0.
Proof.
  unfold SW_FlowExergy. rewrite or_default_zero. reflexivity.
Qed.

(** The call at the default dead state, evaluated. *)
Lemma SW_FlowExergy_25_35 (S0 : option R) :
  or_default S0 35 = 35 ->
  SW_FlowExergy 25 35 0.101325 (Some 25) S0 (Some 0.101325) =
  Throw (ReferenceError "SW_SChemPot_s is not defined").
Proof.
  intros HS0.
  assert (HP : exists Psat,
             SW_Psat 25 35 = Return Psat /\ Psat / 1e6 <= 0.101325 <= 12).
  { destruct (SW_Psat_25 35) as (p & Hp & H0 & H1); [lra|].
    exists p. split; [exact Hp | lra]. }
  destruct (SW_Enthalpy_returns 25 35 0.101325) as (h & Hh); [lra | lra | exact HP |].
  destruct (SW_Entropy_returns 25 35 0.101325) as (s & Hs); [lra | lra | exact HP |].
  destruct (SW_ChemPot_w_returns 25 35 0.101325) as (mu & Hmu);
    [lra | lra | exact HP | lra |].
  unfold SW_FlowExergy. cmp.
  destruct HP as (p & Hp & Hr). rewrite Hp. cbn [bind]. cmp.
  rewrite HS0, !or_default_supplied by lra. cmp.
  rewrite Hh, Hs. cbn [bind]. rewrite Hmu. cbn [bind]. reflexivity.
Qed.

(** C1, on the code.  At the default dead state, which is its own dead
    state, the call does not return a value near 0: it throws on reaching
    the undeclared [SW_SChemPot_s]. *)
Theorem SW_FlowExergy_at_dead_state :
  SW_FlowExergy 25 35 0.101325 (Some 25) (Some 35) (Some 0.101325) =
  Throw (ReferenceError "SW_SChemPot_s is not defined").
Proof.
  apply SW_FlowExergy_25_35. apply or_default_supplied. lra.
Qed.

(** C3, on the code.  With in-range (T, S, P) and the dead-state salinity
    supplied as 0, the call behaves as if no salinity had been supplied
    and does not throw the reference-salinity error. *)
Theorem SW_FlowExergy_S0_zero_accepted :
  SW_FlowExergy 25 35 0.101325 (Some 25) (Some 0) (Some 0.101325) =
  SW_FlowExergy 25 35 0.101325 (Some 25) None (Some 0.101325) /\
  SW_FlowExergy 25 35 0.101325 (Some 25) (Some 0) (Some 0.101325) <>
  Throw (Error "Reference salinity is out of allowed range for flow exergy function 0.1 < S0 < 120").
Proof.
  split; [apply SW_FlowExergy_zero_S0|].
  rewrite SW_FlowExergy_25_35 by apply or_default_zero. discriminate.
Qed.

(** * Further properties of the correlations *)

(** ** Reading a passed check backwards *)

Lemma ltb_inv_false (x y : R) : (x <? y) = false -> y <= x.
Proof. unfold ltb. destruct (Rlt_dec x y); [discriminate | lra]. Qed.

Lemma ltb_inv_true (x y : R) : (x <? y) = true -> x < y.
Proof. unfold ltb. destruct (Rlt_dec x y); [trivial | discriminate]. Qed.

Lemma guard_inv (b : bool) (e : exn) (c : completion R) (v : R) :
  (if b then Throw e else c) = Return v -> b = false /\ c = Return v.
Proof. destruct b; [discriminate | auto]. Qed.

Lemma range_of_guard (lo hi x : R) :
  (x <? lo) || (x >? hi) = false -> lo <= x <= hi.
Proof.
  intros H. apply orb_false_elim in H as [H1 H2].
  apply ltb_inv_false in H1. apply ltb_inv_false in H2. lra.
Qed.

Lemma bind_inv (c : completion R) (k : R -> completion R) (v : R) :
  (x <- c ;; k x) = Return v -> exists a, c = Return a /\ k a = Return v.
Proof.
  destruct c as [a | e]; cbn [bind]; [eauto | discriminate].
Qed.

(** From [H : ... = Return v], peel the range checks and the calls off. *)
Ltac peel H :=
  repeat
    lazymatch type of H with
    | (if _ then Throw _ else _) = Return _ =>
        let G := fresh "G" in
        apply guard_inv in H as [G H];
        first [ apply range_of_guard in G | idtac ]
    | bind _ _ = Return _ =>
        let a := fresh "a" in
        let E := fresh "E" in
        apply bind_inv in H as (a & E & H)
    end.

(** ** The saturation pressure over its whole range *)

Lemma ln_le_6_2 (x : R) : 0 < x <= 464 -> ln x <= 6.2.
Proof.
  intros [H0 H]. rewrite <- (ln_exp 6.2).
  assert (H6 : 464 <= exp 6.2).
  { replace 6.2 with (INR 6 * 1 + 0.2) by (simpl; lra).
    rewrite exp_plus, exp_nat_mult.
    assert (A : 2.7 ^ 6 <= exp 1 ^ 6).
    { apply pow_incr. split; [lra | apply exp_1_lower]. }
    pose proof (exp_ineq1_le 0.2) as B.
    assert (C : 387 <= exp 1 ^ 6) by lra.
    nra. }
  destruct (Rle_lt_or_eq_dec x (exp 6.2)) as [Hlt | ->]; [lra | | right; reflexivity].
  left. apply ln_increasing; assumption.
Qed.

(** Over an interval of absolute temperatures the exponent is bounded
    term by term. *)
Lemma Pv_w_exponent_interval (lo hi L x : R) :
  0 < lo -> lo <= x <= hi -> ln x <= L ->
  Pv_w_exponent x <=
  -5800.2206 / hi + 1.3914993 + -0.048640239 * lo + 0.000041764768 * hi ^ 2 +
  -0.000000014452093 * lo ^ 3 + 6.5459673 * L.
Proof.
  intros Hlo Hx HL. unfold Pv_w_exponent.
  assert (H1 : / hi <= / x) by (apply Rinv_le_contravar; lra).
  assert (H2 : x ^ 2 <= hi ^ 2) by (apply pow_incr; lra).
  assert (H3 : lo ^ 3 <= x ^ 3) by (apply pow_incr; lra).
  unfold Rdiv. lra.
Qed.

Lemma Pv_w_exponent_le_16 (T : R) :
  0 <= T <= 180 -> Pv_w_exponent (T + 273.15) <= INR 16.
Proof.
  intros HT.
  assert (E : INR 16 = 16) by (simpl; lra). rewrite E.
  destruct (Rle_dec T 50); [|destruct (Rle_dec T 100);
    [|destruct (Rle_dec T 130); [|destruct (Rle_dec T 160)]]].
  - eapply Rle_trans;
      [apply (Pv_w_exponent_interval 273.15 323.15 6); [lra | lra | apply ln_le_6; lra] | lra].
  - eapply Rle_trans;
      [apply (Pv_w_exponent_interval 323.15 373.15 6); [lra | lra | apply ln_le_6; lra] | lra].
  - eapply Rle_trans;
      [apply (Pv_w_exponent_interval 373.15 403.15 6.2); [lra | lra | apply ln_le_6_2; lra] | lra].
  - eapply Rle_trans;
      [apply (Pv_w_exponent_interval 403.15 433.15 6.2); [lra | lra | apply ln_le_6_2; lra] | lra].
  - eapply Rle_trans;
      [apply (Pv_w_exponent_interval 433.15 453.15 6.2); [lra | lra | apply ln_le_6_2; lra] | lra].
Qed.

(** Everywhere in its range the saturation pressure is positive and below
    12 MPa. *)
Lemma SW_Psat_window (T S : R) :
  0 <= T <= 180 -> 0 <= S <= 160 ->
  exists Psat, SW_Psat T S = Return Psat /\ 0 < Psat /\ Psat / 1e6 <= 12.
Proof.
  intros HT HS.
  destruct (SW_Psat_bounded 16 T S HT HS (Pv_w_exponent_le_16 T HT))
    as (p & Hp & H0 & H1).
  exists p. repeat split; [assumption | assumption | lra].
Qed.

(** X1.  [SW_Psat(T, S)] returns exactly when 0 <= T <= 180 and
    0 <= S <= 160, and what it returns is a positive pressure of at most
    12 MPa: the pressure window of the other functions is never empty. *)
Theorem SW_Psat_returns_iff (T S : R) :
  (returns (SW_Psat T S) <-> 0 <= T <= 180 /\ 0 <= S <= 160) /\
  (forall Psat, SW_Psat T S = Return Psat -> 0 < Psat <= 12e6).
Proof.
  assert (D : returns (SW_Psat T S) -> 0 <= T <= 180 /\ 0 <= S <= 160).
  { intros [v H]. unfold SW_Psat in H. peel H. split; assumption. }
  split; [split; [exact D|] |].
  - intros [HT HS]. destruct (SW_Psat_window T S HT HS) as (p & Hp & _).
    exists p. exact Hp.
  - intros p Hp. destruct D as [HT HS]; [exists p; exact Hp|].
    destruct (SW_Psat_window T S HT HS) as (p' & Hp' & H0 & H1).
    rewrite Hp in Hp'. injection Hp' as <-. lra.
Qed.

(** X2.  Salinity lowers the saturation pressure: at a given temperature
    [SW_Psat] is non-increasing in S over [0,160], and so never above its
    pure-water value. *)
Theorem SW_Psat_decreasing_in_salinity (T S1 S2 : R) :
  0 <= T <= 180 -> 0 <= S1 -> S1 <= S2 -> S2 <= 160 ->
  exists P1 P2,
    SW_Psat T S1 = Return P1 /\ SW_Psat T S2 = Return P2 /\ P2 <= P1.
Proof.
  intros HT H1 H12 H2.
  rewrite !SW_Psat_in_range by lra.
  eexists. eexists. repeat split.
  apply Rmult_le_compat_l; [left; apply exp_pos|].
  apply exp_le_mono. nra.
Qed.

Lemma SW_Psat_decreasing_in_salinity_witness :
  exists P1 P2,
    SW_Psat 25 0 = Return P1 /\ SW_Psat 25 35 = Return P2 /\ P2 <= P1.
Proof.
  apply (SW_Psat_decreasing_in_salinity 25 0 35); lra.
Defined.

(** ** The order of the checks *)

Ltac unfold_public :=
  unfold SW_BPE, SW_ChemPot_s, SW_ChemPot_w, SW_Conductivity, SW_ConductivityP,
    SW_Density, SW_Diffusivity, SW_Enthalpy, SW_Entropy, SW_FlowExergy,
    SW_Gibbs, SW_IntEnergy, SW_IsobExp, SW_IsothComp, SW_Kviscosity,
    SW_LatentHeat, SW_OsmCoeff, SW_OsmPress, SW_Prandtl, SW_SpcHeat,
    SW_SurfaceTension, SW_Viscosity, SW_Volume.

(** X3.  Every exported function checks the temperature first: a
    temperature outside the function's own range makes the call throw its
    temperature error, whatever the other arguments are. *)
Theorem temperature_is_checked_first
    (f : public_function) (T S P : R) (T0 S0 P0 : option R) :
  T < fst (temperature_range f) \/ snd (temperature_range f) < T ->
  exists m,
    call f T S P T0 S0 P0 = Throw (Error m) /\
    prefix "Temperature is out of range for " m = true.
Proof.
  intros H.
  destruct f; cbn [call temperature_range fst snd] in *;
    unfold_public; unfold SW_Psat;
    (destruct H as [H | H]; cmp; rewrite ?orb_true_r;
     eexists; split; reflexivity).
Qed.

Lemma temperature_is_checked_first_witness :
  exists m,
    call Fn_Enthalpy 5 (-1) 100 None None None = Throw (Error m) /\
    prefix "Temperature is out of range for " m = true.
Proof.
  apply (temperature_is_checked_first Fn_Enthalpy 5 (-1) 100 None None None).
  cbn. lra.
Defined.

(** X4.  The salinity comes second: with the temperature in the
    function's range, a salinity outside the function's own range makes
    the call throw its salinity error, whatever the pressure and the dead
    state are. *)
Theorem salinity_is_checked_second
    (f : public_function) (T S P : R) (T0 S0 P0 : option R) :
  fst (temperature_range f) <= T <= snd (temperature_range f) ->
  S < fst (salinity_range f) \/ snd (salinity_range f) < S ->
  exists m,
    call f T S P T0 S0 P0 = Throw (Error m) /\
    prefix "Salinity is out of range for " m = true.
Proof.
  intros HT H.
  destruct f; cbn [call temperature_range salinity_range fst snd] in *;
    unfold_public; unfold SW_Psat;
    (destruct H as [H | H]; cmp; rewrite ?orb_true_r;
     eexists; split; reflexivity).
Qed.

Lemma salinity_is_checked_second_witness :
  exists m,
    call Fn_Density 25 151 100 None None None = Throw (Error m) /\
    prefix "Salinity is out of range for " m = true.
Proof.
  apply (salinity_is_checked_second Fn_Density 25 151 100 None None None);
    cbn; lra.
Defined.

(** X5.  The pressure comes third: for a function that checks the
    pressure, with temperature and salinity in its range and the salinity
    within the 160 g/kg of the vapor pressure function, a pressure below
    the saturation pressure or above 12 MPa makes the call throw a
    pressure error. *)
Theorem pressure_is_checked_third
    (f : public_function) (T S P : R) (T0 S0 P0 : option R) :
  checks_pressure f = true ->
  fst (temperature_range f) <= T <= snd (temperature_range f) ->
  fst (salinity_range f) <= S <= snd (salinity_range f) ->
  S <= 160 ->
  (exists Psat, SW_Psat T S = Return Psat /\ (P < Psat / 1e6 \/ 12 < P)) ->
  exists m,
    call f T S P T0 S0 P0 = Throw (Error m) /\
    prefix "Pressure is out of range for " m = true.
Proof.
  intros Hf HT HS HS' (p & Hp & H).
  destruct f; try discriminate Hf;
    cbn [call temperature_range salinity_range fst snd] in *;
    unfold_public; unfold SW_Density, SW_Density_P0; cmp;
    rewrite ?Hp; cbn [bind];
    try (destruct (T <? 100); rewrite ?Hp; cbn [bind]);
    (destruct H as [H | H]; cmp; rewrite ?orb_true_r;
     eexists; split; reflexivity).
Qed.

Lemma pressure_is_checked_third_witness :
  exists m,
    call Fn_Volume 25 35 13 None None None = Throw (Error m) /\
    prefix "Pressure is out of range for " m = true.
Proof.
  apply (pressure_is_checked_third Fn_Volume 25 35 13 None None None);
    try reflexivity; try (cbn; lra).
  destruct (SW_Psat_25 35) as (p & Hp & H0 & H1); [lra|].
  exists p. split; [exact Hp | lra].
Defined.

(** ** Density, specific volume and compressibility *)

(** The pure-water density polynomial and the salinity correction, over
    the range of the density function. *)
Lemma rho_sw_sharq_positive (T S : R) :
  0 <= T <= 180 -> 0 <= S <= 150 ->
  0 <
  9.9992293295e2 + 2.0341179217e-2 * T + -6.1624591598e-3 * T ^ 2 +
  2.2614664708e-5 * T ^ 3 + -4.6570659168e-8 * T ^ 4 +
  (8.0200240891e2 * (S / 1000) + -2.0005183488 * (S / 1000) * T +
   1.6771024982e-2 * (S / 1000) * T ^ 2 + -3.0600536746e-5 * (S / 1000) * T ^ 3 +
   -1.6132224742e-5 * (S / 1000) ^ 2 * T ^ 2).
Proof.
  intros HT HS.
  assert (T2 : 0 <= T ^ 2 <= 180 ^ 2) by (split; [nra | apply pow_incr; lra]).
  assert (T3 : 0 <= T ^ 3 <= 180 ^ 3) by (split; [apply pow_le; lra | apply pow_incr; lra]).
  assert (T4 : 0 <= T ^ 4 <= 180 ^ 4) by (split; [apply pow_le; lra | apply pow_incr; lra]).
  set (s := S / 1000) in *.
  assert (Hs : 0 <= s <= 0.15) by (unfold s; lra).
  assert (B : 0 <= 8.0200240891e2 + -2.0005183488 * T + 1.6771024982e-2 * T ^ 2 +
                   -3.0600536746e-5 * T ^ 3 + -1.6132224742e-5 * s * T ^ 2).
  { assert (0 <= s * T ^ 2 <= 0.15 * 180 ^ 2) by nra. lra. }
  assert (D : 0 <= s * (8.0200240891e2 + -2.0005183488 * T + 1.6771024982e-2 * T ^ 2 +
                        -3.0600536746e-5 * T ^ 3 + -1.6132224742e-5 * s * T ^ 2))
    by (apply Rmult_le_pos; lra).
  nra.
Qed.

(** A returned density is strictly positive. *)
Lemma SW_Density_positive (T S P rho : R) :
  SW_Density T S P = Return rho -> 0 < rho.
Proof.
  intros H. unfold SW_Density in H. peel H.
  cbv zeta in H. injection H as <-.
  apply Rmult_lt_0_compat; [| apply exp_pos].
  pose proof (rho_sw_sharq_positive T S G G0) as Hp.
  simpl pow in Hp |- *. exact Hp.
Qed.

Lemma SW_Psat_25_window (S P : R) :
  0 <= S <= 160 -> 0.101325 <= P <= 12 ->
  exists Psat, SW_Psat 25 S = Return Psat /\ Psat / 1e6 <= P <= 12.
Proof.
  intros HS HP. destruct (SW_Psat_25 S HS) as (p & Hp & H0 & H1).
  exists p. split; [exact Hp | lra].
Qed.

(** X6.  [SW_Density(T, S, P)] returns exactly when 0 <= T <= 180,
    0 <= S <= 150 and P lies between the saturation pressure (in MPa) and
    12 MPa; and a returned density is strictly positive. *)
Theorem SW_Density_returns_iff (T S P : R) :
  (returns (SW_Density T S P) <->
   0 <= T <= 180 /\ 0 <= S <= 150 /\
   exists Psat, SW_Psat T S = Return Psat /\ Psat / 1e6 <= P <= 12) /\
  (forall rho, SW_Density T S P = Return rho -> 0 < rho).
Proof.
  split; [split|].
  - intros [v H]. unfold SW_Density in H. peel H.
    repeat split; try lra. exists a0. split; [assumption | lra].
  - intros (HT & HS & H). apply SW_Density_returns; assumption.
  - intros rho. apply SW_Density_positive.
Qed.



(** ** Thermodynamic potentials *)

Lemma Return_inj (a b : R) : Return a = Return b -> a = b.
Proof. intros H. injection H as H. exact H. Qed.

Lemma SW_Psat_inv (T S v : R) :
  SW_Psat T S = Return v -> 0 <= T <= 180 /\ 0 <= S <= 160.
Proof. intros H. unfold SW_Psat in H. peel H. split; assumption. Qed.




(** Below 100 C the reference pressure is one atmosphere. *)
Ltac atmospheric :=
  repeat
    match goal with
    | H : (if ?T <? 100 then _ else _) = Return _ |- _ =>
        rewrite (ltb_true T 100) in H by lra; apply Return_inj in H; subst
    end.

(** X10.  The heat capacity returns exactly when 0 <= T <= 180,
    0 <= S <= 160 and P lies in the pressure window: the salinity check of
    the function allows 180 g/kg, but the vapor pressure it asks for stops
    at 160 g/kg. *)
Theorem SW_SpcHeat_returns_iff (T S P : R) :
  returns (SW_SpcHeat T S P) <->
  0 <= T <= 180 /\ 0 <= S <= 160 /\
  exists Psat, SW_Psat T S = Return Psat /\ Psat / 1e6 <= P <= 12.
Proof.
  split.
  - intros [v H]. unfold SW_SpcHeat in H. peel H.
    destruct (SW_Psat_inv T S a E) as [HT HS].
    repeat split; try lra. exists a. split; [assumption | lra].
  - intros (HT & HS & H). apply SW_SpcHeat_returns; [lra | lra | exact H].
Qed.

(** ** Chemical potentials *)

Lemma SW_ChemPot_s_returns (T S P : R) :
  10 <= T <= 80 -> 0.1 <= S <= 120 ->
  (exists Psat, SW_Psat T S = Return Psat /\ Psat / 1e6 <= P <= 12) ->
  P <= 0.101325 \/ (S <= 42 /\ T <= 40) ->
  exists mu, SW_ChemPot_s T S P = Return mu.
Proof.
  intros HT HS H Hc.
  destruct (SW_Gibbs_returns T S P) as (g & Hg); [lra | lra | exact H |].
  unfold SW_ChemPot_s, SW_ChemPot_s_P0. cmp.
  destruct H as (p & Hp & Hr). rewrite Hp. cbn [bind]. cmp.
  destruct Hc as [Hc | Hc].
  - cmp. rewrite Hg. cbn [bind]. eexists; reflexivity.
  - destruct (Rlt_dec 0.101325 P); cmp; rewrite Hg; cbn [bind]; eexists; reflexivity.
Qed.

(** What the combined check lets through. *)
Lemma combined_bound_inv (T S P : R) :
  (P >? 0.101325) && ((S >? 42) || (T >? 40)) = false ->
  P <= 0.101325 \/ (S <= 42 /\ T <= 40).
Proof.
  intros H. apply andb_false_elim in H as [H | H].
  - left. apply ltb_inv_false in H. exact H.
  - right. apply orb_false_elim in H as [H1 H2].
    apply ltb_inv_false in H1. apply ltb_inv_false in H2. split; assumption.
Qed.

(** X11.  The water chemical potential returns exactly when
    10 <= T <= 80, 0 <= S <= 120, P lies in the pressure window, and either
    P <= 0.101325 MPa or both S <= 42 g/kg and T <= 40 C; the salt chemical
    potential likewise, with 0.1 <= S. *)
Theorem SW_ChemPot_returns_iff (T S P : R) :
  (returns (SW_ChemPot_w T S P) <->
   10 <= T <= 80 /\ 0 <= S <= 120 /\
   (exists Psat, SW_Psat T S = Return Psat /\ Psat / 1e6 <= P <= 12) /\
   (P <= 0.101325 \/ (S <= 42 /\ T <= 40))) /\
  (returns (SW_ChemPot_s T S P) <->
   10 <= T <= 80 /\ 0.1 <= S <= 120 /\
   (exists Psat, SW_Psat T S = Return Psat /\ Psat / 1e6 <= P <= 12) /\
   (P <= 0.101325 \/ (S <= 42 /\ T <= 40))).
Proof.
  split; split.
  - intros [v H]. unfold SW_ChemPot_w, SW_ChemPot_w_P0 in H. peel H.
    atmospheric. apply combined_bound_inv in G2.
    split; [lra|]. split; [lra|]. split; [| exact G2].
    exists a. split; [assumption | lra].
  - intros (HT & HS & H & Hc). apply SW_ChemPot_w_returns; assumption.
  - intros [v H]. unfold SW_ChemPot_s, SW_ChemPot_s_P0 in H. peel H.
    atmospheric. apply combined_bound_inv in G2.
    split; [lra|]. split; [lra|]. split; [| exact G2].
    exists a. split; [assumption | lra].
  - intros (HT & HS & H & Hc). apply SW_ChemPot_s_returns; assumption.
Qed.

(** X12.  At zero salinity the water chemical potential is the Gibbs
    energy: whenever [SW_ChemPot_w(T, 0, P)] returns, [SW_Gibbs(T, 0, P)]
    returns the same value. *)
Theorem SW_ChemPot_w_pure_water (T P mu : R) :
  SW_ChemPot_w T 0 P = Return mu -> SW_Gibbs T 0 P = Return mu.
Proof.
  intros H. unfold SW_ChemPot_w in H. peel H.
  rewrite E1. f_equal. apply Return_inj in H. subst mu.
  cbv zeta. unfold gtb. rewrite (ltb_false 0 0) by lra. lra.
Qed.

Lemma SW_ChemPot_w_pure_water_witness :
  exists mu,
    SW_ChemPot_w 50 0 0.101325 = Return mu /\ SW_Gibbs 50 0 0.101325 = Return mu.
Proof.
  destruct (SW_ChemPot_w_returns 50 0 0.101325) as (mu & H); try lra.
  { destruct (SW_Psat_50 0) as (p & Hp & H0 & H1); [lra|].
    exists p. split; [exact Hp | lra]. }
  exists mu. split; [exact H|].
  apply (SW_ChemPot_w_pure_water 50 0.101325 mu). exact H.
Defined.



(** ** Osmotic coefficient and osmotic pressure at zero salinity *)

(** At zero salinity the molality is 0, and both solute terms of the
    S <= 10 branch vanish with it. *)
Lemma SW_OsmCoeff_zero_salinity (T : R) :
  0 <= T <= 120 -> SW_OsmCoeff T 0 = Return 1.
Proof.
  intros HT. unfold SW_OsmCoeff. cmp. f_equal. cbv zeta.
  assert (M : 0 / (1000 - 0) * (1000 / 31.4038218) = 0) by lra.
  assert (Z : Math_pow 0 0.5 = 0).
  { unfold Math_pow. destruct (Rlt_dec 0 0); [lra | reflexivity]. }
  rewrite M, Z.
  match goal with
  | |- 1 - ?b * 0 + ?l * 0 = 1 => generalize b l; intros; ring
  end.
Qed.

(** X14.  For pure water the osmotic coefficient is 1, at every
    temperature of the range. *)
Theorem SW_OsmCoeff_pure_water (T : R) :
  0 <= T <= 120 -> SW_OsmCoeff T 0 = Return 1.
Proof. exact (SW_OsmCoeff_zero_salinity T). Qed.

Lemma SW_OsmCoeff_pure_water_witness : SW_OsmCoeff 25 0 = Return 1.
Proof. apply (SW_OsmCoeff_pure_water 25). lra. Defined.

(** X15.  For pure water the osmotic pressure is 0, for every
    temperature of the range at which the pure-water density is returned:
    from 100 C on always, and below 100 C when the vapor pressure does not
    exceed one atmosphere. *)
Theorem SW_OsmPress_pure_water (T : R) :
  0 <= T <= 120 ->
  (T < 100 -> exists Psat, SW_Psat T 0 = Return Psat /\ Psat / 1e6 <= 0.101325) ->
  SW_OsmPress T 0 = Return 0.
Proof.
  intros HT H. unfold SW_OsmPress, SW_OsmPress_P0. cmp.
  rewrite SW_OsmCoeff_zero_salinity by assumption. cbn [bind].
  split_100 T.
  - cmp. cbn [bind].
    destruct (SW_Density_returns T 0 0.101325) as (rho & Hrho); [lra | lra | |].
    { destruct (H Hlt) as (p & Hp & Hr). exists p. split; [exact Hp | lra]. }
    rewrite Hrho. cbn [bind]. f_equal. lra.
  - cmp. destruct (SW_Psat_window T 0) as (p & Hp & H0 & H1); [lra | lra |].
    rewrite Hp. cbn [bind].
    destruct (SW_Density_returns T 0 (p / 1e6)) as (rho & Hrho); [lra | lra | |].
    { exists p. split; [exact Hp | lra]. }
    rewrite Hrho. cbn [bind]. f_equal. lra.
Qed.

Lemma SW_OsmPress_pure_water_witness :
  SW_OsmPress 25 0 = Return 0 /\ SW_OsmPress 110 0 = Return 0.
Proof.
  split.
  - apply (SW_OsmPress_pure_water 25); [lra|]. intros _.
    destruct (SW_Psat_25 0) as (p & Hp & H0 & H1); [lra|].
    exists p. split; assumption.
  - apply (SW_OsmPress_pure_water 110); [lra|]. intros H. lra.
Defined.

(** ** The composites evaluated at the reference pressure *)

Lemma SW_Viscosity_returns (T S : R) :
  0 <= T <= 180 -> 0 <= S <= 150 -> exists mu, SW_Viscosity T S = Return mu.
Proof.
  intros HT HS. unfold SW_Viscosity. cmp. eexists; reflexivity.
Qed.

(** In range, the reference pressure lies in the pressure window exactly
    under the condition of the theorem below. *)
Lemma reference_pressure_in_window (T S : R) :
  0 <= T <= 180 -> 0 <= S <= 160 ->
  (T < 100 -> exists Psat, SW_Psat T S = Return Psat /\ Psat / 1e6 <= 0.101325) ->
  exists P0,
    resolvePressureReference T S = Return P0 /\
    exists Psat, SW_Psat T S = Return Psat /\ Psat / 1e6 <= P0 <= 12.
Proof.
  intros HT HS H. unfold resolvePressureReference.
  split_100 T; cmp.
  - exists 0.101325. split; [reflexivity|].
    destruct (H Hlt) as (p & Hp & Hr). exists p. split; [exact Hp | lra].
  - destruct (SW_Psat_window T S HT HS) as (p & Hp & H0 & H1).
    rewrite Hp. cbn [bind]. exists (p / 1e6). split; [reflexivity|].
    exists p. split; [reflexivity | lra].
Qed.

Lemma window_at_one_atmosphere (T S a P0 : R) :
  T < 100 ->
  resolvePressureReference T S = Return P0 ->
  SW_Psat T S = Return a -> a / 1e6 <= P0 <= 12 ->
  exists Psat, SW_Psat T S = Return Psat /\ Psat / 1e6 <= 0.101325.
Proof.
  intros Hlt HP0 Ha Hw. unfold resolvePressureReference in HP0.
  rewrite (ltb_true T 100) in HP0 by lra. apply Return_inj in HP0. subst P0.
  exists a. split; [exact Ha | lra].
Qed.

Ltac close_window Hlt E :=
  match goal with
  | HP : SW_Psat ?T ?S = Return ?x, Hw : ?x / 1e6 <= ?p <= 12 |- _ =>
      exact (window_at_one_atmosphere T S x p Hlt E HP Hw)
  end.

(** X16.  Thermal diffusivity, kinematic viscosity and Prandtl number
    have one and the same domain: each returns exactly when 0 <= T <= 180,
    0 <= S <= 150 and, below 100 C, the vapor pressure does not exceed one
    atmosphere.  From 100 C on they always return. *)
Theorem composites_return_iff
    (f : R -> R -> completion R) (T S : R) :
  f = SW_Diffusivity \/ f = SW_Kviscosity \/ f = SW_Prandtl ->
  (returns (f T S) <->
   0 <= T <= 180 /\ 0 <= S <= 150 /\
   (T < 100 -> exists Psat, SW_Psat T S = Return Psat /\ Psat / 1e6 <= 0.101325)).
Proof.
  assert (K : forall T S, SW_Kviscosity_P0 T S = resolvePressureReference T S).
  { intros T' S'. unfold SW_Kviscosity_P0, resolvePressureReference.
    rewrite geb_ltb. destruct (T' <? 100); reflexivity. }
  intros Hf. split.
  - intros [v H].
    destruct Hf as [-> | [-> | ->]].
    + unfold SW_Diffusivity in H. peel H.
      change (SW_Diffusivity_P0 T S) with (resolvePressureReference T S) in E.
      split; [lra|]. split; [lra|]. intros Hlt.
      unfold SW_Density in E0. peel E0. close_window Hlt E.
    + unfold SW_Kviscosity in H. peel H. rewrite K in E.
      split; [lra|]. split; [lra|]. intros Hlt.
      unfold SW_Density in E0. peel E0. close_window Hlt E.
    + unfold SW_Prandtl in H. peel H.
      change (SW_Prandtl_P0 T S) with (resolvePressureReference T S) in E.
      split; [lra|]. split; [lra|]. intros Hlt.
      unfold SW_SpcHeat in E0. peel E0. close_window Hlt E.
  - intros (HT & HS & H).
    destruct (reference_pressure_in_window T S) as (P0 & HP0 & Hw);
      [lra | lra | exact H |].
    destruct (SW_Density_returns T S P0) as (rho & Hrho); [lra | lra | exact Hw |].
    destruct (SW_SpcHeat_returns T S P0) as (cp & Hcp); [lra | lra | exact Hw |].
    destruct (SW_Conductivity_returns T S) as (k & Hk); [lra | lra |].
    destruct (SW_Viscosity_returns T S) as (mu & Hmu); [lra | lra |].
    destruct Hf as [-> | [-> | ->]].
    + unfold SW_Diffusivity. cmp.
      change (SW_Diffusivity_P0 T S) with (resolvePressureReference T S).
      rewrite HP0. cbn [bind]. rewrite Hrho, Hcp, Hk. eexists; reflexivity.
    + unfold SW_Kviscosity. cmp. rewrite K, HP0. cbn [bind].
      rewrite Hrho, Hmu. eexists; reflexivity.
    + unfold SW_Prandtl. cmp.
      change (SW_Prandtl_P0 T S) with (resolvePressureReference T S).
      rewrite HP0. cbn [bind]. rewrite Hcp, Hmu, Hk. eexists; reflexivity.
Qed.

Lemma composites_return_iff_witness :
  returns (SW_Kviscosity 150 35) <->
  0 <= 150 <= 180 /\ 0 <= 35 <= 150 /\
  (150 < 100 -> exists Psat, SW_Psat 150 35 = Return Psat /\ Psat / 1e6 <= 0.101325).
Proof.
  apply (composites_return_iff SW_Kviscosity 150 35). auto.
Defined.

(** ** Flow exergy, on every input *)

(** X17.  No call of [SW_FlowExergy] returns a value: whatever the six
    arguments are, the call throws. *)
Theorem SW_FlowExergy_always_throws (T S P : R) (T0 S0 P0 : option R) :
  exists e, SW_FlowExergy T S P T0 S0 P0 = Throw e.
Proof.
  destruct (SW_FlowExergy T S P T0 S0 P0) as [v | e] eqn:E.
  - exfalso. exact (SW_FlowExergy_never_returns T S P T0 S0 P0 v E).
  - exists e. reflexivity.
Qed.

(** X18.  When every range check passes, for the state and for the dead
    state as resolved by the defaults (state in range and in the pressure
    window; dead-state temperature in [10,80], dead-state salinity at least
    0.1, dead-state pressure in the window of (T0, S) and within the
    combined bound of the water chemical potential), the call ends in the
    ReferenceError of the undeclared [SW_SChemPot_s]. *)
Theorem SW_FlowExergy_past_the_checks (T S P : R) (T0 S0 P0 : option R) :
  10 <= T <= 80 -> 0 <= S <= 120 ->
  (exists Psat, SW_Psat T S = Return Psat /\ Psat / 1e6 <= P <= 12) ->
  10 <= or_default T0 25 <= 80 ->
  0.1 <= or_default S0 35 ->
  (exists Psat, SW_Psat (or_default T0 25) S = Return Psat /\
                Psat / 1e6 <= or_default P0 0.101325 <= 12) ->
  or_default P0 0.101325 <= 0.101325 \/ (S <= 42 /\ or_default T0 25 <= 40) ->
  SW_FlowExergy T S P T0 S0 P0 =
  Throw (ReferenceError "SW_SChemPot_s is not defined").
Proof.
  intros HT HS HP HT0 HS0 HP0 Hc.
  destruct (SW_Enthalpy_returns T S P) as (h & Hh); [lra | lra | exact HP |].
  destruct (SW_Entropy_returns T S P) as (s & Hs); [lra | lra | exact HP |].
  destruct (SW_Enthalpy_returns (or_default T0 25) S (or_default P0 0.101325))
    as (h' & Hh'); [lra | lra | exact HP0 |].
  destruct (SW_Entropy_returns (or_default T0 25) S (or_default P0 0.101325))
    as (s' & Hs'); [lra | lra | exact HP0 |].
  destruct (SW_ChemPot_w_returns (or_default T0 25) S (or_default P0 0.101325))
    as (mu & Hmu); [lra | lra | exact HP0 | exact Hc |].
  unfold SW_FlowExergy. cmp.
  destruct HP as (p & Hp & Hr). rewrite Hp. cbn [bind]. cmp.
  rewrite Hh, Hs. cbn [bind]. rewrite Hh', Hs'. cbn [bind].
  rewrite Hmu. cbn [bind]. reflexivity.
Qed.

Lemma SW_FlowExergy_past_the_checks_witness :
  SW_FlowExergy 25 35 12 None None None =
  Throw (ReferenceError "SW_SChemPot_s is not defined").
Proof.
  apply (SW_FlowExergy_past_the_checks 25 35 12 None None None);
    cbn [or_default]; try lra;
    apply SW_Psat_25_window; lra.
Defined.

(** ** Internal energy and kinematic viscosity *)




(** ** Signs and the effect of salinity *)

(** X21.  Over its range (T in [0,200] C, S in [0,120] g/kg) the boiling
    point elevation is returned and is never negative, and for pure water
    it is zero. *)
Theorem SW_BPE_sign (T S : R) :
  0 <= T <= 200 -> 0 <= S <= 120 ->
  exists BPE, SW_BPE T S = Return BPE /\ 0 <= BPE /\ (S = 0 -> BPE = 0).
Proof.
  intros HT HS. unfold SW_BPE. cmp. cbv zeta.
  eexists. split; [reflexivity|].
  set (s := S / 1000).
  assert (Hs : 0 <= s) by (unfold s; lra).
  assert (T2 : 0 <= T ^ 2 <= 200 * T) by nra.
  set (A := -0.00045838530457 * T ^ 2 + 0.28230948284 * T + 17.945189194).
  set (B := 0.00015361752708 * T ^ 2 + 0.052669058133 * T + 6.5604855793).
  assert (HA : 0 < A) by (unfold A; lra).
  assert (HB : 0 < B) by (unfold B; lra).
  assert (E : A * s ^ 2 + B * s = s * (A * s + B)) by ring.
  rewrite E.
  assert (HAB : 0 < A * s + B) by nra.
  split; [nra|].
  intros ->. unfold s. lra.
Qed.

Lemma SW_BPE_sign_witness :
  exists BPE, SW_BPE 100 35 = Return BPE /\ 0 <= BPE /\ (35 = 0 -> BPE = 0).
Proof. apply (SW_BPE_sign 100 35); lra. Defined.

(** X22.  Over its range (T in [0,200] C, S in [0,240] g/kg) the latent
    heat of vaporization is positive and does not increase with the
    salinity. *)
Theorem SW_LatentHeat_decreasing_in_salinity (T S1 S2 : R) :
  0 <= T <= 200 -> 0 <= S1 -> S1 <= S2 -> S2 <= 240 ->
  exists L1 L2,
    SW_LatentHeat T S1 = Return L1 /\ SW_LatentHeat T S2 = Return L2 /\
    0 < L2 <= L1.
Proof.
  intros HT H1 H12 H2. unfold SW_LatentHeat. cmp. cbv zeta.
  eexists. eexists. split; [reflexivity|]. split; [reflexivity|].
  assert (T2 : 0 <= T ^ 2) by nra.
  assert (T3 : 0 <= T ^ 3 <= 200 ^ 3) by (split; [apply pow_le; lra | apply pow_incr; lra]).
  assert (T4 : 0 <= T ^ 4 <= 200 ^ 4) by (split; [apply pow_le; lra | apply pow_incr; lra]).
  set (hfg_w := 2500899.1412 + -2369.1806479 * T + 0.26776439436 * T ^ 2 +
                -0.0081027544602 * T ^ 3 + -0.000020799346624 * T ^ 4).
  assert (Hw : 0 < hfg_w) by (unfold hfg_w; lra).
  split; nra.
Qed.

Lemma SW_LatentHeat_decreasing_in_salinity_witness :
  exists L1 L2,
    SW_LatentHeat 100 0 = Return L1 /\ SW_LatentHeat 100 35 = Return L2 /\
    0 < L2 <= L1.
Proof. apply (SW_LatentHeat_decreasing_in_salinity 100 0 35); lra. Defined.

(** X23.  Over its range (T in [0,180] C, S in [0,150] g/kg) the dynamic
    viscosity is positive and does not decrease with the salinity. *)
Theorem SW_Viscosity_increasing_in_salinity (T S1 S2 : R) :
  0 <= T <= 180 -> 0 <= S1 -> S1 <= S2 -> S2 <= 150 ->
  exists mu1 mu2,
    SW_Viscosity T S1 = Return mu1 /\ SW_Viscosity T S2 = Return mu2 /\
    0 < mu1 <= mu2.
Proof.
  intros HT H1 H12 H2. unfold SW_Viscosity. cmp. cbv zeta.
  eexists. eexists. split; [reflexivity|]. split; [reflexivity|].
  set (d := 0.15700386464 * (T + 64.99262005) ^ 2 + -91.296496657).
  assert (Hd : 0 < d) by (unfold d; nra).
  assert (Hi : 0 < 1 / d) by (apply Rdiv_lt_0_compat; lra).
  set (mu_w := 0.000042844324477 + 1 / d).
  assert (Hw : 0 < mu_w) by (unfold mu_w; lra).
  assert (T2 : 0 <= T ^ 2 <= 180 * T) by nra.
  set (A := 1.540913604 + 0.019981117208 * T + -0.000095203865864 * T ^ 2).
  set (B := 7.9739318223 + -0.075614568881 * T + 0.00047237011074 * T ^ 2).
  assert (HA : 0 < A) by (unfold A; lra).
  assert (HB : 0 < B) by (unfold B; nra).
  set (s1 := S1 / 1000). set (s2 := S2 / 1000).
  assert (Hs : 0 <= s1 <= s2) by (unfold s1, s2; lra).
  assert (Q1 : 0 <= s1 ^ 2 <= s2 ^ 2) by (split; [nra | apply pow_incr; lra]).
  assert (L1 : 0 <= A * s1 <= A * s2)
    by (split; [apply Rmult_le_pos | apply Rmult_le_compat_l]; lra).
  assert (L2 : 0 <= B * s1 ^ 2 <= B * s2 ^ 2)
    by (split; [apply Rmult_le_pos | apply Rmult_le_compat_l]; lra).
  split.
  - apply Rmult_lt_0_compat; lra.
  - apply Rmult_le_compat_l; lra.
Qed.

Lemma SW_Viscosity_increasing_in_salinity_witness :
  exists mu1 mu2,
    SW_Viscosity 25 0 = Return mu1 /\ SW_Viscosity 25 35 = Return mu2 /\
    0 < mu1 <= mu2.
Proof. apply (SW_Viscosity_increasing_in_salinity 25 0 35); lra. Defined.

(** X24.  A returned thermal conductivity is strictly positive. *)
Theorem SW_Conductivity_positive (T S K : R) :
  SW_Conductivity T S = Return K -> 0 < K.
Proof.
  intros H. unfold SW_Conductivity in H. peel H. apply Return_inj in H. subst K.
  cbv zeta. apply Rmult_lt_0_compat; [lra|].
  unfold Math_pow at 1. destruct (Rlt_dec 0 10); [| lra].
  unfold Rpower. apply exp_pos.
Qed.

Lemma SW_Conductivity_positive_witness :
  exists K, SW_Conductivity 25 35 = Return K /\ 0 < K.
Proof.
  destruct (SW_Conductivity_returns 25 35) as (K & HK); [lra | lra |].
  exists K. split; [exact HK|].
  apply (SW_Conductivity_positive 25 35 K). exact HK.
Defined.



(** X26.  Over its range (T in [0,100] C, S in [0,131] g/kg) the surface
    tension is positive and does not decrease with the salinity. *)
Theorem SW_SurfaceTension_increasing_in_salinity (T S1 S2 : R) :
  0 <= T <= 100 -> 0 <= S1 -> S1 <= S2 -> S2 <= 131 ->
  exists g1 g2,
    SW_SurfaceTension T S1 = Return g1 /\ SW_SurfaceTension T S2 = Return g2 /\
    0 < g1 <= g2.
Proof.
  intros HT H1 H12 H2. unfold SW_SurfaceTension. cmp. cbv zeta.
  eexists. eexists. split; [reflexivity|]. split; [reflexivity|].
  set (b := 1 - (T + 273.15) / 647.096).
  assert (Hb : 0 < b) by (unfold b; lra).
  assert (Hp : 0 < Math_pow b 1.256).
  { unfold Math_pow. destruct (Rlt_dec 0 b); [| lra]. unfold Rpower. apply exp_pos. }
  set (gamma_w := 235.8 * Math_pow b 1.256 * (1 - 0.625 * b)).
  assert (Hw : 0 < gamma_w).
  { unfold gamma_w. apply Rmult_lt_0_compat; [apply Rmult_lt_0_compat; lra|].
    unfold b. lra. }
  assert (L : 0 <= S1 * T <= S2 * T)
    by (split; [apply Rmult_le_pos | apply Rmult_le_compat_r]; lra).
  split.
  - apply Rmult_lt_0_compat; lra.
  - apply Rmult_le_compat_l; lra.
Qed.

Lemma SW_SurfaceTension_increasing_in_salinity_witness :
  exists g1 g2,
    SW_SurfaceTension 25 0 = Return g1 /\ SW_SurfaceTension 25 35 = Return g2 /\
    0 < g1 <= g2.
Proof. apply (SW_SurfaceTension_increasing_in_salinity 25 0 35); lra. Defined.

(** * The reference pressure, in the functions *)

Lemma SW_Kviscosity_P0_rule (T S : R) :
  SW_Kviscosity_P0 T S = resolvePressureReference T S.
Proof.
  unfold SW_Kviscosity_P0, resolvePressureReference.
  rewrite geb_ltb. destruct (T <? 100); reflexivity.
Qed.

(** What a returned value was computed from. *)
Ltac computed_from H := apply Return_inj in H; subst; reflexivity.

(** C8, as it holds.  Every function that resolves a reference pressure
    computes with the P0 of the one rule, 0.101325 MPa when T < 100 C and
    SW_Psat(T, S')/1e6 when T >= 100 C: a value returned by the density, the
    enthalpy, the entropy, the Gibbs energy, the heat capacity, the
    isobaric expansivity or a chemical potential is the function's
    correlation evaluated at that P0 with S' = S; diffusivity, kinematic
    viscosity and Prandtl number call density and heat capacity at that P0
    with S' = S; and the osmotic pressure calls the density of pure water
    at that P0 with S' = 0. *)
Theorem reference_pressure_rule :
  (forall T S P v, SW_Density T S P = Return v ->
     exists P0, resolvePressureReference T S = Return P0 /\
                v = Density_correlation T S P P0) /\
  (forall T S P v, SW_Enthalpy T S P = Return v ->
     exists P0, resolvePressureReference T S = Return P0 /\
                v = Enthalpy_correlation T S P P0) /\
  (forall T S P v, SW_Entropy T S P = Return v ->
     exists P0, resolvePressureReference T S = Return P0 /\
                v = Entropy_correlation T S P P0) /\
  (forall T S P v, SW_Gibbs T S P = Return v ->
     exists P0, resolvePressureReference T S = Return P0 /\
                v = Gibbs_correlation T S P P0) /\
  (forall T S P v, SW_SpcHeat T S P = Return v ->
     exists P0, resolvePressureReference T S = Return P0 /\
                v = SpcHeat_correlation T S P P0) /\
  (forall T S P v, SW_IsobExp T S P = Return v ->
     exists P0, resolvePressureReference T S = Return P0 /\
                v = IsobExp_correlation T S P P0) /\
  (forall T S P v, SW_ChemPot_s T S P = Return v ->
     exists P0 g, resolvePressureReference T S = Return P0 /\
                  SW_Gibbs T S P = Return g /\
                  v = ChemPot_s_correlation T S P P0 g) /\
  (forall T S P v, SW_ChemPot_w T S P = Return v ->
     exists P0 g, resolvePressureReference T S = Return P0 /\
                  SW_Gibbs T S P = Return g /\
                  v = ChemPot_w_correlation T S P P0 g) /\
  (forall T S v, SW_Diffusivity T S = Return v ->
     exists P0 rho cp K, resolvePressureReference T S = Return P0 /\
                         SW_Density T S P0 = Return rho /\
                         SW_SpcHeat T S P0 = Return cp /\
                         SW_Conductivity T S = Return K /\
                         v = K / (rho * cp)) /\
  (forall T S v, SW_Kviscosity T S = Return v ->
     exists P0 rho mu, resolvePressureReference T S = Return P0 /\
                       SW_Density T S P0 = Return rho /\
                       SW_Viscosity T S = Return mu /\
                       v = mu / rho) /\
  (forall T S v, SW_Prandtl T S = Return v ->
     exists P0 cp mu K, resolvePressureReference T S = Return P0 /\
                        SW_SpcHeat T S P0 = Return cp /\
                        SW_Viscosity T S = Return mu /\
                        SW_Conductivity T S = Return K /\
                        v = cp * mu / K) /\
  (forall T S v, SW_OsmPress T S = Return v ->
     exists P0 Phi rho_w, resolvePressureReference T 0 = Return P0 /\
                          SW_OsmCoeff T S = Return Phi /\
                          SW_Density T 0 P0 = Return rho_w /\
                          v = Phi * (1000 * S / ((1000 - S) * 31.4038218)) *
                              8.3144598 * (T + 273.15) * rho_w / 1e6).
Proof.
  repeat split.
  - intros T S P v H. unfold SW_Density in H. peel H.
    exists a. split; [exact E | computed_from H].
  - intros T S P v H. unfold SW_Enthalpy in H. peel H.
    exists a0. split; [exact E0 | computed_from H].
  - intros T S P v H. unfold SW_Entropy in H. peel H.
    exists a0. split; [exact E0 | computed_from H].
  - intros T S P v H. unfold SW_Gibbs in H. peel H.
    exists a0. split; [exact E0 | computed_from H].
  - intros T S P v H. unfold SW_SpcHeat in H. peel H.
    exists a0. split; [exact E0 | computed_from H].
  - intros T S P v H. unfold SW_IsobExp in H. peel H.
    exists a0. split; [exact E0 | computed_from H].
  - intros T S P v H. unfold SW_ChemPot_s in H. peel H. cbv zeta in H. peel H.
    exists a0, a1. split; [exact E0|]. split; [exact E1 | computed_from H].
  - intros T S P v H. unfold SW_ChemPot_w in H. peel H. cbv zeta in H. peel H.
    exists a0, a1. split; [exact E0|]. split; [exact E1 | computed_from H].
  - intros T S v H. unfold SW_Diffusivity in H. peel H.
    exists a, a0, a1, a2. repeat split; try assumption. computed_from H.
  - intros T S v H. unfold SW_Kviscosity in H. peel H.
    rewrite SW_Kviscosity_P0_rule in E.
    exists a, a0, a1. repeat split; try assumption. computed_from H.
  - intros T S v H. unfold SW_Prandtl in H. peel H.
    exists a, a0, a1, a2. repeat split; try assumption. computed_from H.
  - intros T S v H. unfold SW_OsmPress in H. peel H. cbv zeta in H. peel H.
    exists a0, a, a1. repeat split; try assumption. computed_from H.
Qed.

Lemma reference_pressure_rule_witness :
  exists v P0,
    SW_Density 120 35 12 = Return v /\
    resolvePressureReference 120 35 = Return P0 /\
    v = Density_correlation 120 35 12 P0.
Proof.
  destruct (SW_Density_returns 120 35 12) as (v & Hv); [lra | lra | |].
  { destruct (SW_Psat_window 120 35) as (p & Hp & H0 & H1); [lra | lra |].
    exists p. split; [exact Hp | lra]. }
  destruct (proj1 reference_pressure_rule 120 35 12 v Hv) as (P0 & HP0 & E).
  exists v, P0. repeat split; assumption.
Defined.

(** C8, as stated, fails for the osmotic pressure.  At T = 110 C and
    S = 35 g/kg the call returns; had it taken P0 = SW_Psat(110, 35)/1e6,
    as the rule applied to its own arguments gives, its density call
    SW_Density(110, 0, P0) would have been rejected, that pressure lying
    below the saturation pressure of pure water. *)
Lemma SW_OsmPress_reference_pressure_differs :
  returns (SW_OsmPress 110 35) /\
  forall P0, resolvePressureReference 110 35 = Return P0 ->
             ~ returns (SW_Density 110 0 P0).
Proof.
  split.
  - destruct (SW_Psat_window 110 0) as (p & Hp & H0 & H1); [lra | lra |].
    destruct (SW_Density_returns 110 0 (p / 1e6)) as (rho & Hrho); [lra | lra | |].
    { exists p. split; [exact Hp | lra]. }
    unfold SW_OsmPress, SW_OsmPress_P0. cmp.
    rewrite SW_OsmCoeff_direct by lra. cbn [bind].
    rewrite Hp. cbn [bind]. rewrite Hrho. cbn [bind]. eexists; reflexivity.
  - intros P0 HP0 [rho H].
    unfold resolvePressureReference in HP0.
    rewrite (ltb_false 110 100) in HP0 by lra.
    rewrite SW_Psat_in_range in HP0 by lra. cbn [bind] in HP0.
    apply Return_inj in HP0.
    unfold SW_Density in H. peel H.
    rewrite SW_Psat_in_range in E0 by lra. apply Return_inj in E0.
    pose proof (exp_pos (Pv_w_exponent (110 + 273.15))) as Hp.
    assert (Z : exp (-4.5818e-4 * 0 + -2.0443e-6 * 0 ^ 2) = 1).
    { rewrite <- exp_0. f_equal. lra. }
    assert (L : exp (-4.5818e-4 * 35 + -2.0443e-6 * 35 ^ 2) < 1).
    { rewrite <- exp_0. apply exp_increasing. lra. }
    rewrite Z in E0. subst. nra.
Qed.

(** * What a failing call throws *)

Lemma guard_true_inv (lo hi x : R) :
  (x <? lo) || (x >? hi) = true -> x < lo \/ hi < x.
Proof.
  intros H. apply orb_true_iff in H as [H | H]; apply ltb_inv_true in H; auto.
Qed.

Lemma combined_true_inv (P0 P S T S_hi T_hi : R) :
  (P >? P0) && ((S >? S_hi) || (T >? T_hi)) = true ->
  P0 < P /\ (S_hi < S \/ T_hi < T).
Proof.
  intros H. apply andb_true_iff in H as [H1 H2].
  apply ltb_inv_true in H1. split; [exact H1|].
  apply orb_true_iff in H2 as [H2 | H2]; apply ltb_inv_true in H2; auto.
Qed.

Lemma accounts_for_caller (i j : invocation) (m : string) :
  reaches i j -> accounts_for j m -> accounts_for i m.
Proof.
  intros Hij (k & c & Hjk & Hc & Hv & Hm).
  exists k, c. repeat split; try assumption.
  clear - Hij Hjk. induction Hjk; [exact Hij | eapply reaches_then; eauto].
Qed.

Lemma accounted_return (i : invocation) (v : R) : accounted i (Return v).
Proof. intros e H. discriminate. Qed.

Lemma accounted_throw (i : invocation) (m : string) :
  accounts_for i m -> accounted i (Throw (Error m)).
Proof. intros Hm e H. injection H as <-. exists m. split; [reflexivity | exact Hm]. Qed.

Lemma accounted_if (i : invocation) (b : bool) (c1 c2 : completion R) :
  (b = true -> accounted i c1) -> (b = false -> accounted i c2) ->
  accounted i (if b then c1 else c2).
Proof. destruct b; auto. Qed.

Lemma accounted_bind (i : invocation) (c : completion R) (k : R -> completion R) :
  accounted i c -> (forall v, c = Return v -> accounted i (k v)) ->
  accounted i (x <- c ;; k x).
Proof.
  intros Hc Hk. destruct c as [v | e]; cbn [bind]; [apply Hk; reflexivity | exact Hc].
Qed.

Lemma errors_accounted_of (i : invocation) (c : completion R) :
  accounted i c -> errors_accounted i c.
Proof.
  intros H m Hm. destruct (H _ Hm) as (m' & E & Hr). injection E as ->. exact Hr.
Qed.

Lemma errors_accounted_reference (i : invocation) (m : string) :
  errors_accounted i (Throw (ReferenceError m)).
Proof. intros m' H. discriminate. Qed.

Lemma errors_accounted_if (i : invocation) (b : bool) (c1 c2 : completion R) :
  (b = true -> errors_accounted i c1) -> (b = false -> errors_accounted i c2) ->
  errors_accounted i (if b then c1 else c2).
Proof. destruct b; auto. Qed.

Lemma errors_accounted_bind
    (i : invocation) (c : completion R) (k : R -> completion R) :
  errors_accounted i c -> (forall v, c = Return v -> errors_accounted i (k v)) ->
  errors_accounted i (x <- c ;; k x).
Proof.
  intros Hc Hk. destruct c as [v | e]; cbn [bind]; [apply Hk; reflexivity | exact Hc].
Qed.

(** The failed test [Hb] shows that check [c] of the reached call is
    violated. *)
Ltac show_violated Hb :=
  cbn [violated examined bound_value arg_T arg_S arg_P arg_S0];
  first
    [ apply guard_true_inv in Hb; destruct Hb; [left | right]; lra
    | apply ltb_inv_true in Hb; left; lra
    | eexists; split; [eassumption|];
      apply guard_true_inv in Hb; destruct Hb; [left | right]; lra
    | eexists; split; [eassumption|];
      apply combined_true_inv in Hb; destruct Hb as [? [? | ?]];
      (split; [assumption|]); [left | right]; lra ].

Ltac try_checks Hr Hb j l :=
  lazymatch l with
  | ?c :: ?l' =>
      first
        [ solve
            [ exists j, c; split; [exact Hr|];
              split; [cbn; tauto|];
              split; [show_violated Hb | vm_compute; reflexivity] ]
        | try_checks Hr Hb j l' ]
  end.

(** Find the check of the reached function that the failed test [Hb]
    belongs to. *)
Ltac own_check Hb :=
  lazymatch goal with
  | Hr : reaches ?i ?j |- accounts_for ?i _ =>
      let l := eval cbv in (own_checks (callee j)) in
      try_checks Hr Hb j l
  end.

(** One step through the body of a function whose call [Hr] reaches. *)
Ltac account_step :=
  lazymatch goal with
  | |- accounted _ (Return _) => apply accounted_return
  | |- accounted _ (if _ then Throw (Error _) else _) =>
      let Hb := fresh "Hb" in
      apply accounted_if; intros Hb; [apply accounted_throw; own_check Hb |]
  | |- accounted _ (if (_ <? 100) then _ else _) =>
      let Hb := fresh "Hb" in
      apply accounted_if; intros Hb; [| apply ltb_inv_false in Hb]
  | |- accounted _ (bind _ _) =>
      let v := fresh "v" in
      let E := fresh "E" in
      apply accounted_bind; [| intros v E]
  end.

Ltac account := cbv zeta; repeat account_step.

(** The call of a callee: [L] accounts for the callee, [Hr] reaches the
    caller. *)
Ltac callee_accounted L Hr :=
  eapply L; eapply reaches_then; [exact Hr | econstructor; eassumption].

Section Accounted.

Variable i : invocation.

Lemma SW_Psat_accounted (T S P : R) (d1 d2 d3 : option R) :
  reaches i (Call Fn_Psat T S P d1 d2 d3) -> accounted i (SW_Psat T S).
Proof. intros Hr. unfold SW_Psat. account. Qed.

Lemma SW_BPE_accounted (T S P : R) (d1 d2 d3 : option R) :
  reaches i (Call Fn_BPE T S P d1 d2 d3) -> accounted i (SW_BPE T S).
Proof. intros Hr. unfold SW_BPE. account. Qed.

Lemma SW_Conductivity_accounted (T S P : R) (d1 d2 d3 : option R) :
  reaches i (Call Fn_Conductivity T S P d1 d2 d3) ->
  accounted i (SW_Conductivity T S).
Proof. intros Hr. unfold SW_Conductivity. account. Qed.

Lemma SW_LatentHeat_accounted (T S P : R) (d1 d2 d3 : option R) :
  reaches i (Call Fn_LatentHeat T S P d1 d2 d3) ->
  accounted i (SW_LatentHeat T S).
Proof. intros Hr. unfold SW_LatentHeat. account. Qed.

Lemma SW_OsmCoeff_accounted (T S P : R) (d1 d2 d3 : option R) :
  reaches i (Call Fn_OsmCoeff T S P d1 d2 d3) -> accounted i (SW_OsmCoeff T S).
Proof. intros Hr. unfold SW_OsmCoeff. account. apply accounted_if; intros _; account. Qed.

Lemma SW_SurfaceTension_accounted (T S P : R) (d1 d2 d3 : option R) :
  reaches i (Call Fn_SurfaceTension T S P d1 d2 d3) ->
  accounted i (SW_SurfaceTension T S).
Proof. intros Hr. unfold SW_SurfaceTension. account. Qed.

Lemma SW_Viscosity_accounted (T S P : R) (d1 d2 d3 : option R) :
  reaches i (Call Fn_Viscosity T S P d1 d2 d3) -> accounted i (SW_Viscosity T S).
Proof. intros Hr. unfold SW_Viscosity. account. Qed.


(** The reference pressure: its one call is that of [SW_Psat], from 100 C
    on. *)
Lemma reference_accounted (T S P : R) :
  (100 <= T -> reaches i (Call Fn_Psat T S P None None None)) ->
  accounted i (resolvePressureReference T S).
Proof.
  intros H. unfold resolvePressureReference. account.
  eapply SW_Psat_accounted. apply H. assumption.
Qed.

(** What [account] leaves: the calls of the body. *)
Ltac call_Psat Hr := callee_accounted SW_Psat_accounted Hr.

Ltac call_reference Hr :=
  eapply reference_accounted; intros ?H100;
  eapply reaches_then; [exact Hr | econstructor; eassumption].

Lemma SW_ConductivityP_accounted (T S P : R) (d1 d2 d3 : option R) :
  reaches i (Call Fn_ConductivityP T S P d1 d2 d3) ->
  accounted i (SW_ConductivityP T S P).
Proof. intros Hr. unfold SW_ConductivityP. account. call_Psat Hr. Qed.

Lemma SW_Density_accounted (T S P : R) (d1 d2 d3 : option R) :
  reaches i (Call Fn_Density T S P d1 d2 d3) -> accounted i (SW_Density T S P).
Proof.
  intros Hr. unfold SW_Density.
  change (SW_Density_P0 T S) with (resolvePressureReference T S).
  account; [call_reference Hr | call_Psat Hr].
Qed.

Lemma SW_SpcHeat_accounted (T S P : R) (d1 d2 d3 : option R) :
  reaches i (Call Fn_SpcHeat T S P d1 d2 d3) -> accounted i (SW_SpcHeat T S P).
Proof.
  intros Hr. unfold SW_SpcHeat.
  change (SW_SpcHeat_P0 T S) with (resolvePressureReference T S).
  account; [call_Psat Hr | call_reference Hr].
Qed.

Lemma SW_Enthalpy_accounted (T S P : R) (d1 d2 d3 : option R) :
  reaches i (Call Fn_Enthalpy T S P d1 d2 d3) -> accounted i (SW_Enthalpy T S P).
Proof.
  intros Hr. unfold SW_Enthalpy.
  change (SW_Enthalpy_P0 T S) with (resolvePressureReference T S).
  account; [call_Psat Hr | call_reference Hr].
Qed.

Lemma SW_Entropy_accounted (T S P : R) (d1 d2 d3 : option R) :
  reaches i (Call Fn_Entropy T S P d1 d2 d3) -> accounted i (SW_Entropy T S P).
Proof.
  intros Hr. unfold SW_Entropy.
  change (SW_Entropy_P0 T S) with (resolvePressureReference T S).
  account; [call_Psat Hr | call_reference Hr].
Qed.

Lemma SW_Gibbs_accounted (T S P : R) (d1 d2 d3 : option R) :
  reaches i (Call Fn_Gibbs T S P d1 d2 d3) -> accounted i (SW_Gibbs T S P).
Proof.
  intros Hr. unfold SW_Gibbs.
  change (SW_Gibbs_P0 T S) with (resolvePressureReference T S).
  account; [call_Psat Hr | call_reference Hr].
Qed.

Lemma SW_IsobExp_accounted (T S P : R) (d1 d2 d3 : option R) :
  reaches i (Call Fn_IsobExp T S P d1 d2 d3) -> accounted i (SW_IsobExp T S P).
Proof.
  intros Hr. unfold SW_IsobExp.
  change (SW_IsobExp_P0 T S) with (resolvePressureReference T S).
  account; [call_Psat Hr | call_reference Hr].
Qed.

Lemma SW_IsothComp_accounted (T S P : R) (d1 d2 d3 : option R) :
  reaches i (Call Fn_IsothComp T S P d1 d2 d3) ->
  accounted i (SW_IsothComp T S P).
Proof. intros Hr. unfold SW_IsothComp. account. call_Psat Hr. Qed.

Lemma SW_ChemPot_s_accounted (T S P : R) (d1 d2 d3 : option R) :
  reaches i (Call Fn_ChemPot_s T S P d1 d2 d3) ->
  accounted i (SW_ChemPot_s T S P).
Proof.
  intros Hr. unfold SW_ChemPot_s.
  change (SW_ChemPot_s_P0 T S) with (resolvePressureReference T S).
  account;
    [call_Psat Hr | call_reference Hr | callee_accounted SW_Gibbs_accounted Hr].
Qed.

Lemma SW_ChemPot_w_accounted (T S P : R) (d1 d2 d3 : option R) :
  reaches i (Call Fn_ChemPot_w T S P d1 d2 d3) ->
  accounted i (SW_ChemPot_w T S P).
Proof.
  intros Hr. unfold SW_ChemPot_w.
  change (SW_ChemPot_w_P0 T S) with (resolvePressureReference T S).
  account;
    [call_Psat Hr | call_reference Hr | callee_accounted SW_Gibbs_accounted Hr].
Qed.

Lemma SW_Diffusivity_accounted (T S P : R) (d1 d2 d3 : option R) :
  reaches i (Call Fn_Diffusivity T S P d1 d2 d3) ->
  accounted i (SW_Diffusivity T S).
Proof.
  intros Hr. unfold SW_Diffusivity.
  change (SW_Diffusivity_P0 T S) with (resolvePressureReference T S).
  account;
    [ call_reference Hr
    | callee_accounted SW_Density_accounted Hr
    | callee_accounted SW_SpcHeat_accounted Hr
    | callee_accounted SW_Conductivity_accounted Hr ].
Qed.

Lemma SW_IntEnergy_accounted (T S P : R) (d1 d2 d3 : option R) :
  reaches i (Call Fn_IntEnergy T S P d1 d2 d3) ->
  accounted i (SW_IntEnergy T S P).
Proof.
  intros Hr. unfold SW_IntEnergy.
  account;
    [ call_Psat Hr
    | callee_accounted SW_Density_accounted Hr
    | callee_accounted SW_Enthalpy_accounted Hr ].
Qed.

Lemma SW_Kviscosity_accounted (T S P : R) (d1 d2 d3 : option R) :
  reaches i (Call Fn_Kviscosity T S P d1 d2 d3) ->
  accounted i (SW_Kviscosity T S).
Proof.
  intros Hr. unfold SW_Kviscosity. rewrite SW_Kviscosity_P0_rule.
  account;
    [ call_reference Hr
    | callee_accounted SW_Density_accounted Hr
    | callee_accounted SW_Viscosity_accounted Hr ].
Qed.

Lemma SW_OsmPress_accounted (T S P : R) (d1 d2 d3 : option R) :
  reaches i (Call Fn_OsmPress T S P d1 d2 d3) -> accounted i (SW_OsmPress T S).
Proof.
  intros Hr. unfold SW_OsmPress.
  change (SW_OsmPress_P0 T S) with (resolvePressureReference T 0).
  account;
    [ callee_accounted SW_OsmCoeff_accounted Hr
    | call_reference Hr
    | callee_accounted SW_Density_accounted Hr ].
Qed.

Lemma SW_Prandtl_accounted (T S P : R) (d1 d2 d3 : option R) :
  reaches i (Call Fn_Prandtl T S P d1 d2 d3) -> accounted i (SW_Prandtl T S).
Proof.
  intros Hr. unfold SW_Prandtl.
  change (SW_Prandtl_P0 T S) with (resolvePressureReference T S).
  account;
    [ call_reference Hr
    | callee_accounted SW_SpcHeat_accounted Hr
    | callee_accounted SW_Viscosity_accounted Hr
    | callee_accounted SW_Conductivity_accounted Hr ].
Qed.

Lemma SW_Volume_accounted (T S P : R) (d1 d2 d3 : option R) :
  reaches i (Call Fn_Volume T S P d1 d2 d3) -> accounted i (SW_Volume T S P).
Proof.
  intros Hr. unfold SW_Volume.
  account. callee_accounted SW_Density_accounted Hr.
Qed.

(** [SW_FlowExergy]: the same for what it throws as an [Error]. *)
Ltac account_errors_step Hr :=
  lazymatch goal with
  | |- errors_accounted _ (Return _) =>
      apply errors_accounted_of, accounted_return
  | |- errors_accounted _ (if _ then Throw (Error _) else _) =>
      let Hb := fresh "Hb" in
      apply errors_accounted_if; intros Hb;
      [apply errors_accounted_of, accounted_throw; own_check Hb |]
  | |- errors_accounted _ (bind (Throw (ReferenceError _)) _) =>
      apply errors_accounted_reference
  | |- errors_accounted _ (bind _ _) =>
      let v := fresh "v" in
      let E := fresh "E" in
      apply errors_accounted_bind; [apply errors_accounted_of | intros v E]
  end.

Lemma SW_FlowExergy_accounted (T S P : R) (T0 S0 P0 : option R) :
  reaches i (Call Fn_FlowExergy T S P T0 S0 P0) ->
  errors_accounted i (SW_FlowExergy T S P T0 S0 P0).
Proof.
  intros Hr. unfold SW_FlowExergy, SW_SChemPot_s, call_undeclared. cbv zeta.
  repeat account_errors_step Hr;
    first [ call_Psat Hr
          | callee_accounted SW_Enthalpy_accounted Hr
          | callee_accounted SW_Entropy_accounted Hr
          | callee_accounted SW_ChemPot_w_accounted Hr ].
Qed.

End Accounted.

(** C2, as it holds.  A failing call of an exported function other than
    [SW_FlowExergy] throws a plain [Error], and every [Error] thrown by an
    exported function, [SW_FlowExergy] included, is the range error of a
    function in the call chain (the function called or one it calls): its
    message is the fixed text of one of that function's checks, naming the
    function, the variable and the bound, and the call of that function
    violates the check, the examined value lying outside the bound.  The
    text is fixed by the function and the check alone: it carries no
    value. *)
Theorem public_failures_are_range_errors
    (f : public_function) (T S P : R) (T0 S0 P0 : option R) (e : exn) :
  call f T S P T0 S0 P0 = Throw e ->
  (f <> Fn_FlowExergy -> exists m, e = Error m) /\
  (forall m, e = Error m ->
     exists j c,
       reaches (Call f T S P T0 S0 P0) j /\
       In c (own_checks (callee j)) /\
       violated c j /\
       m = message_of (callee j) c).
Proof.
  intros H.
  set (i := Call f T S P T0 S0 P0).
  assert (Hr : reaches i (Call f T S P T0 S0 P0)) by apply reaches_itself.
  assert (A : f <> Fn_FlowExergy -> accounted i (call f T S P T0 S0 P0)).
  { intros Hne. destruct f; cbn [call];
      first [ congruence
            | eapply SW_BPE_accounted; exact Hr
            | eapply SW_ChemPot_s_accounted; exact Hr
            | eapply SW_ChemPot_w_accounted; exact Hr
            | eapply SW_Conductivity_accounted; exact Hr
            | eapply SW_ConductivityP_accounted; exact Hr
            | eapply SW_Density_accounted; exact Hr
            | eapply SW_Diffusivity_accounted; exact Hr
            | eapply SW_Enthalpy_accounted; exact Hr
            | eapply SW_Entropy_accounted; exact Hr
            | eapply SW_Gibbs_accounted; exact Hr
            | eapply SW_IntEnergy_accounted; exact Hr
            | eapply SW_IsobExp_accounted; exact Hr
            | eapply SW_IsothComp_accounted; exact Hr
            | eapply SW_Kviscosity_accounted; exact Hr
            | eapply SW_LatentHeat_accounted; exact Hr
            | eapply SW_OsmCoeff_accounted; exact Hr
            | eapply SW_OsmPress_accounted; exact Hr
            | eapply SW_Psat_accounted; exact Hr
            | eapply SW_Prandtl_accounted; exact Hr
            | eapply SW_SpcHeat_accounted; exact Hr
            | eapply SW_SurfaceTension_accounted; exact Hr
            | eapply SW_Viscosity_accounted; exact Hr
            | eapply SW_Volume_accounted; exact Hr ]. }
  split.
  - intros Hne. destruct (A Hne e H) as (m & E & _). exists m. exact E.
  - intros m ->.
    assert (B : errors_accounted i (call f T S P T0 S0 P0)).
    { destruct f;
        try (apply errors_accounted_of, A; discriminate).
      cbn [call]. apply SW_FlowExergy_accounted. exact Hr. }
    exact (B m H).
Qed.

Lemma public_failures_are_range_errors_witness :
  (Fn_Psat <> Fn_FlowExergy ->
   exists m,
     Error "Temperature is out of range for vapor pressure function 0 < T < 180 C" =
     Error m) /\
  (forall m,
     Error "Temperature is out of range for vapor pressure function 0 < T < 180 C" =
     Error m ->
     exists j c,
       reaches (Call Fn_Psat (-1) 0 0 None None None) j /\
       In c (own_checks (callee j)) /\
       violated c j /\
       m = message_of (callee j) c).
Proof.
  apply (public_failures_are_range_errors Fn_Psat (-1) 0 0 None None None).
  cbn [call]. unfold SW_Psat. cmp. reflexivity.
Defined.
